(** * Governance & Internal Audit API: authentication boundary and
      ownership-scoped data access

    A shallow embedding of [main.py] and [schemas.py].  Python dictionaries
    are finite maps from field names to dynamically typed values, the
    document store is threaded explicitly through every handler, and raised
    exceptions are the [Raise] branch of a small error monad.  The clock
    ([datetime.now]) and the salt drawn by the password hasher are explicit
    arguments.  Strings are sequences of 8-bit code units. *)

From Stdlib Require Import ZArith String Ascii List Bool Lia SpecFloat.
From Stdlib Require Import DecimalString HexadecimalString HexadecimalNat.
From stdpp Require Import base option list gmap strings.

Open Scope string_scope.

(** ** Python values and the few built-ins the handlers use *)

Module Py.

Inductive value : Type :=
| VNone
| VBool (b : bool)
| VInt (z : Z)
| VFloat (f : spec_float)
| VStr (s : string)
| VOid (n : nat)          (* a store-assigned object id *)
| VTime (t : Z).          (* a datetime, in seconds since the epoch *)

#[global] Instance spec_float_eq_dec : EqDecision spec_float.
Proof. solve_decision. Defined.

#[global] Instance value_eq_dec : EqDecision value.
Proof. solve_decision. Defined.

(** A [dict] with string keys. *)
Abbreviation dict := (gmap string value).

(** [d.get(k)]: a missing key reads as [None]. *)
Definition get (d : dict) (k : string) : value := default VNone (d !! k).

(** [d.get(k, dflt)]. *)
Definition get_default (d : dict) (k : string) (dflt : value) : value :=
  default dflt (d !! k).

(** Truth value of an object, as tested by [if x], [not x] and [x or y]. *)
Definition truthy (v : value) : bool :=
  match v with
  | VNone => false
  | VBool b => b
  | VInt z => negb (z =? 0)%Z
  | VFloat (S754_zero _) => false
  | VFloat _ => true
  | VStr s => negb (String.eqb s "")
  | VOid _ => true
  | VTime _ => true
  end.

(** Truth value of an [Optional[str]]. *)
Definition truthy_str (o : option string) : bool :=
  match o with
  | None => false
  | Some s => negb (String.eqb s "")
  end.

(** [a or b] on an optional string [a] and a string [b]. *)
Definition or_str (a : option string) (b : string) : string :=
  match a with
  | Some s => if String.eqb s "" then b else s
  | None => b
  end.

(** [str(ObjectId)]: the hexadecimal rendering of the id. *)
Definition str_oid (n : nat) : string :=
  HexadecimalString.NilEmpty.string_of_uint (Nat.to_hex_uint n).

(** [str(v)] for the values the handlers apply it to. *)
Definition str (v : value) : string :=
  match v with
  | VNone => "None"
  | VBool true => "True"
  | VBool false => "False"
  | VStr s => s
  | VOid n => str_oid n
  | VInt z => DecimalString.NilZero.string_of_int (Z.to_int z)
  | VFloat _ => "<float>"
  | VTime _ => "<datetime>"
  end.

(** [s.split(sep)] for a one-character separator: every occurrence of
    [sep] cuts, so the result is never empty and may hold empty pieces. *)
Fixpoint split (sep : ascii) (s : string) : list string :=
  match s with
  | EmptyString => [""]
  | String c r =>
      if Ascii.eqb c sep then "" :: split sep r
      else match split sep r with
           | h :: t => String c h :: t
           | [] => [String c ""]
           end
  end.

(** [l[0]] on the result of a split. *)
Definition first (l : list string) : string := hd "" l.

(** [c.lower()] on one code unit: A-Z, and the Latin-1 capitals. *)
Definition lower_ascii (c : ascii) : ascii :=
  let n := nat_of_ascii c in
  if (((65 <=? n) && (n <=? 90))
      || ((192 <=? n) && (n <=? 222) && negb (n =? 215)))%nat
  then ascii_of_nat (n + 32) else c.

Fixpoint lower (s : string) : string :=
  match s with
  | EmptyString => EmptyString
  | String c r => String (lower_ascii c) (lower r)
  end.

(** [s[:n]] and [s[n:]]. *)
Fixpoint take_str (n : nat) (s : string) : string :=
  match n, s with
  | S n', String c r => String c (take_str n' r)
  | _, _ => EmptyString
  end.

Fixpoint drop_str (n : nat) (s : string) : string :=
  match n, s with
  | S n', String _ r => drop_str n' r
  | _, _ => s
  end.

(** [strip p s = Some r] when [s = p ++ r]. *)
Fixpoint strip (p s : string) : option string :=
  match p with
  | EmptyString => Some s
  | String a p' =>
      match s with
      | String b s' => if Ascii.eqb a b then strip p' s' else None
      | EmptyString => None
      end
  end.

Fixpoint all_chars (f : ascii -> bool) (s : string) : bool :=
  match s with
  | EmptyString => true
  | String c r => f c && all_chars f r
  end.

Definition opt_str (o : option string) : value :=
  match o with Some s => VStr s | None => VNone end.

Definition opt_time (o : option Z) : value :=
  match o with Some t => VTime t | None => VNone end.

(** Exceptions: FastAPI's [HTTPException], and any other exception with
    its class name and its [str(e)]. *)
Inductive exn : Type :=
| HTTPException (status_code : nat) (detail : string)
| Error (cls : string) (msg : string).

Definition str_exn (e : exn) : string :=
  match e with
  | HTTPException _ d => d
  | Error _ m => m
  end.

Inductive result (A : Type) : Type :=
| Ok (a : A)
| Raise (e : exn).
Arguments Ok {A} a.
Arguments Raise {A} e.

(** Sequencing: a raised exception skips the rest of the body. *)
#[global] Instance result_ret : MRet result := fun _ a => Ok a.
#[global] Instance result_bind : MBind result := fun _ _ k r =>
  match r with
  | Ok a => k a
  | Raise e => Raise e
  end.

(** [try: body except Exception as e: handler(e)]. *)
Definition try_except {A} (body : result A) (handler : exn -> result A) : result A :=
  match body with
  | Ok a => Ok a
  | Raise e => handler e
  end.

End Py.
Export Py.

(** ** The document store *)

Module Database.

(** The store: the next object id to hand out, and the named
    collections, each a list of documents in insertion order. *)
Record store : Type := {
  next_oid : nat;
  collections : gmap string (list dict)
}.

Definition empty : store := {| next_oid := 0; collections := ∅ |}.

Definition collection (db : store) (name : string) : list dict :=
  default [] (collections db !! name).

(** A document satisfies an equality filter when it carries every
    filtered field with the filter's value. *)
Definition matches (flt doc : dict) : bool :=
  bool_decide (map_Forall (fun k v => doc !! k = Some v) flt).

(** Modelled from the spec: [database.create_document] is not among the
    sources; the store contract is [insert(collectionName, record) -> id].
    The record is stored under a fresh [_id] and the id is returned as a
    string. *)
Definition create_document (name : string) (data : dict) (db : store)
  : string * store :=
  let oid := next_oid db in
  (str_oid oid,
   {| next_oid := S oid;
      collections :=
        <[name := (collection db name ++ [<["_id" := VOid oid]> data])%list]>
          (collections db) |}).

(** Modelled from the spec: [database.get_documents] is not among the
    sources; the store contract is
    [query(collectionName, equalityFilter, limit?) -> list of records].
    No filter selects every document; a limit keeps the first ones. *)
Definition get_documents (name : string) (flt : option dict)
    (limit : option nat) (db : store) : list dict :=
  let found := List.filter (matches (default ∅ flt)) (collection db name) in
  match limit with
  | Some n => take n found
  | None => found
  end.

End Database.
Export Database.

(** ** The record schemas of [schemas.py]

    Each model is a record; [model_dump] is the dictionary of its fields. *)

Module User.
Record t : Type := {
  name : string;
  email : string;
  hashed_password : string;
  role : string;          (* default "member" *)
  is_active : bool        (* default True *)
}.
Definition model_dump (u : t) : dict :=
  list_to_map [("name", VStr (name u)); ("email", VStr (email u));
               ("hashed_password", VStr (hashed_password u));
               ("role", VStr (role u)); ("is_active", VBool (is_active u))].
End User.

Module Project.
Record t : Type := {
  name : string;
  description : option string;
  owner_id : option string;
  status : string         (* default "active" *)
}.
Definition model_dump (p : t) : dict :=
  list_to_map [("name", VStr (name p)); ("description", opt_str (description p));
               ("owner_id", opt_str (owner_id p)); ("status", VStr (status p))].
End Project.

Module ScorecardMetric.
Record t : Type := {
  project_id : string;
  title : string;
  description : option string;
  target_value : spec_float;
  current_value : spec_float;
  unit : string;
  due_date : option Z
}.
Definition model_dump (m : t) : dict :=
  list_to_map [("project_id", VStr (project_id m)); ("title", VStr (title m));
               ("description", opt_str (description m));
               ("target_value", VFloat (target_value m));
               ("current_value", VFloat (current_value m));
               ("unit", VStr (unit m)); ("due_date", opt_time (due_date m))].
End ScorecardMetric.

Module ActionPlanItem.
Record t : Type := {
  project_id : string;
  title : string;
  description : option string;
  owner_id : option string;
  status : string;
  due_date : option Z
}.
Definition model_dump (a : t) : dict :=
  list_to_map [("project_id", VStr (project_id a)); ("title", VStr (title a));
               ("description", opt_str (description a));
               ("owner_id", opt_str (owner_id a)); ("status", VStr (status a));
               ("due_date", opt_time (due_date a))].
End ActionPlanItem.

Module TimelineItem.
Record t : Type := {
  project_id : string;
  type : string;
  title : string;
  description : option string;
  start_date : option Z;
  end_date : option Z
}.
Definition model_dump (i : t) : dict :=
  list_to_map [("project_id", VStr (project_id i)); ("type", VStr (type i));
               ("title", VStr (title i)); ("description", opt_str (description i));
               ("start_date", opt_time (start_date i));
               ("end_date", opt_time (end_date i))].
End TimelineItem.

Module Task.
Record t : Type := {
  project_id : string;
  timeline_item_id : string;
  title : string;
  description : option string;
  assignee_id : option string;
  status : string;
  due_date : option Z
}.
Definition model_dump (k : t) : dict :=
  list_to_map [("project_id", VStr (project_id k));
               ("timeline_item_id", VStr (timeline_item_id k));
               ("title", VStr (title k)); ("description", opt_str (description k));
               ("assignee_id", opt_str (assignee_id k)); ("status", VStr (status k));
               ("due_date", opt_time (due_date k))].
End Task.

Module Comment.
Record t : Type := {
  project_id : string;
  timeline_item_id : option string;
  task_id : option string;
  author_id : option string;
  content : string
}.
Definition model_dump (c : t) : dict :=
  list_to_map [("project_id", VStr (project_id c));
               ("timeline_item_id", opt_str (timeline_item_id c));
               ("task_id", opt_str (task_id c));
               ("author_id", opt_str (author_id c));
               ("content", VStr (content c))].
End Comment.

Module Document.
Record t : Type := {
  project_id : string;
  timeline_item_id : option string;
  task_id : option string;
  name : string;
  url : string;
  uploaded_by : option string
}.
Definition model_dump (d : t) : dict :=
  list_to_map [("project_id", VStr (project_id d));
               ("timeline_item_id", opt_str (timeline_item_id d));
               ("task_id", opt_str (task_id d));
               ("name", VStr (name d)); ("url", VStr (url d));
               ("uploaded_by", opt_str (uploaded_by d))].
End Document.

(** ** The libraries [main.py] calls

    [passlib] and [jwt] are third-party packages.  Their cryptographic
    cores (the bcrypt digest, the signed token encoding) are interfaces;
    the checks the packages make around them are written out. *)

Module Passlib.

Definition has_nul (s : string) : bool :=
  negb (all_chars (fun c => negb (Ascii.eqb c zero)) s).

Definition is_digit (c : ascii) : bool :=
  let n := nat_of_ascii c in ((48 <=? n) && (n <=? 57))%nat.

(** The alphabet of bcrypt's base-64 variant: [./A-Za-z0-9]. *)
Definition is_h64 (c : ascii) : bool :=
  let n := nat_of_ascii c in
  (((46 <=? n) && (n <=? 57)) || ((65 <=? n) && (n <=? 90))
   || ((97 <=? n) && (n <=? 122)))%nat.

(** The bcrypt digest: from the configuration string
    [$ident$rounds$salt] and the secret to the 31-character checksum. *)
Class Bcrypt : Type := { hashpw : string -> string -> string }.

Class BcryptWf (bcrypt : Bcrypt) : Prop := {
  hashpw_length : forall config secret,
    String.length (hashpw config secret) = 31%nat;
  hashpw_h64 : forall config secret,
    all_chars is_h64 (hashpw config secret) = true
}.

(** A salt as the hasher draws it: 22 characters of the alphabet. *)
Definition valid_salt (salt : string) : bool :=
  (String.length salt =? 22)%nat && all_chars is_h64 salt.

Section Context.
Context {bcrypt : Bcrypt}.

Definition MAX_PASSWORD_SIZE : nat := 4096.

Definition idents : list string := ["$2$"; "$2a$"; "$2x$"; "$2y$"; "$2b$"].

Fixpoint first_ident (ids : list string) (h : string)
  : option (string * string) :=
  match ids with
  | [] => None
  | i :: ids' =>
      match strip i h with
      | Some rest => Some (i, rest)
      | None => first_ident ids' h
      end
  end.

(** Does the hash look like one of the context's schemes? *)
Definition identify (h : string) : bool :=
  match first_ident idents h with Some _ => true | None => false end.

Definition malformed : exn := Error "ValueError" "malformed bcrypt hash".

Definition unsupported_2x : exn :=
  Error "ValueError"
        "crypt_blowfish's buggy '2x' hashes are not currently supported".

(** Parse [$ident$rounds$salt22checksum31] into the configuration
    string and the checksum.  The ident [$2x$] is recognised but refused,
    before anything else of the hash is read. *)
Definition from_string (h : string) : result (string * string) :=
  match first_ident idents h with
  | Some (ident, tail) =>
      if String.eqb ident "$2x$" then Raise unsupported_2x
      else
        match tail with
        | String r1 (String r2 (String "$" data)) =>
            let rounds :=
              (10 * (nat_of_ascii r1 - 48) + (nat_of_ascii r2 - 48))%nat in
            if is_digit r1 && is_digit r2
               && (4 <=? rounds)%nat && (rounds <=? 31)%nat
               && (String.length data =? 53)%nat && all_chars is_h64 data
            then Ok (ident ++ String r1 (String r2 "$") ++ take_str 22 data,
                     drop_str 22 data)
            else Raise malformed
        | _ => Raise malformed
        end
  | None => Raise malformed
  end.

Definition validate_secret (secret : string) : result unit :=
  if (MAX_PASSWORD_SIZE <? String.length secret)%nat
  then Raise (Error "PasswordSizeError" "password exceeds maximum allowed size")
  else Ok tt.

Definition calc_checksum (config secret : string) : result string :=
  if has_nul secret
  then Raise (Error "NullPasswordError"
                    "bcrypt does not allow NULL bytes in password")
  else Ok (hashpw config secret).

(** [CryptContext(schemes=["bcrypt"]).hash(secret)], with the salt it
    draws; the default cost is 12. *)
Definition hash (salt secret : string) : result string :=
  _ ← validate_secret secret;
  let config := "$2b$12$" ++ salt in
  chk ← calc_checksum config secret;
  Ok (config ++ chk).

(** [CryptContext(schemes=["bcrypt"]).verify(secret, hash)]: a [None]
    hash is refused quietly, a string no scheme recognises or that does
    not parse raises. *)
Definition verify (secret : string) (hashed : value) : result bool :=
  match hashed with
  | VNone => Ok false
  | VStr h =>
      if negb (identify h)
      then Raise (Error "UnknownHashError" "hash could not be identified")
      else
        _ ← validate_secret secret;
        '(config, chk) ← from_string h;
        chk' ← calc_checksum config secret;
        Ok (String.eqb chk' chk)
  | _ => Raise (Error "TypeError" "hash must be unicode or bytes")
  end.

End Context.

End Passlib.

Module Jwt.

(** [jwt.encode(payload, key, algorithm)] and
    [jwt.decode(token, key, algorithms)], the latter reading the clock. *)
Class Codec : Type := {
  encode : dict -> string -> string -> string;
  decode : string -> string -> list string -> Z -> result dict
}.

(** The payload of an access token: a subject and an expiry time. *)
Definition claims (sub : string) (exp : Z) : dict :=
  <["exp" := VTime exp]> {["sub" := VStr sub]}.

(** What the handlers rely on: a token is one word (no space in it), and
    decoding a token under the key and algorithm it was made with gives
    back its claims, the expiry as a number, unless the expiry has
    passed. *)
Class CodecSpec (codec : Codec) : Prop := {
  encode_one_word : forall payload key alg,
    split " " (encode payload key alg) = [encode payload key alg];
  decode_encode : forall sub exp key alg now,
    decode (encode (claims sub exp) key alg) key [alg] now =
      if (exp <=? now)%Z
      then Raise (Error "ExpiredSignatureError" "Signature has expired")
      else Ok (<["exp" := VInt exp]> {["sub" := VStr sub]})
}.

End Jwt.

(** ** [main.py] *)

Module Main.

(** Request bodies and the token response. *)
Module TokenResponse.
Record t : Type := { access_token : string; token_type : string }.
End TokenResponse.

Module AuthPayload.
Record t : Type := { email : string; password : string; name : option string }.
End AuthPayload.

Module ProjectIn.
Record t : Type := { name : string; description : option string }.
End ProjectIn.

Module MetricIn.
Record t : Type := {
  project_id : string;
  title : string;
  description : option string;
  target_value : spec_float;
  current_value : spec_float;
  unit : string;
  due_date : option Z
}.
End MetricIn.

Module ActionIn.
Record t : Type := {
  project_id : string;
  title : string;
  description : option string;
  owner_id : option string;
  status : string;
  due_date : option Z
}.
End ActionIn.

Module TimelineIn.
Record t : Type := {
  project_id : string;
  type : string;
  title : string;
  description : option string;
  start_date : option Z;
  end_date : option Z
}.
End TimelineIn.

Module TaskIn.
Record t : Type := {
  project_id : string;
  timeline_item_id : string;
  title : string;
  description : option string;
  assignee_id : option string;
  status : string;
  due_date : option Z
}.
End TaskIn.

Module CommentIn.
Record t : Type := {
  project_id : string;
  content : string;
  timeline_item_id : option string;
  task_id : option string
}.
End CommentIn.

Module DocumentIn.
Record t : Type := {
  project_id : string;
  name : string;
  url : string;
  timeline_item_id : option string;
  task_id : option string
}.
End DocumentIn.

(** The process configuration: the signing secret read from the
    environment, and the two library back ends. *)
Class Env : Type := {
  JWT_SECRET : string;
  env_bcrypt :: Passlib.Bcrypt;
  env_jwt :: Jwt.Codec
}.

Definition JWT_ALGO : string := "HS256".
Definition ACCESS_TOKEN_EXPIRE_MINUTES : Z := 60 * 8.

(** [timedelta(minutes=m)], in seconds. *)
Definition minutes (m : Z) : Z := (60 * m)%Z.

Section Handlers.
Context {env : Env}.

(** *** Helpers *)

Definition hash_password (salt password : string) : result string :=
  Passlib.hash salt password.

Definition verify_password (password : string) (hashed : value) : result bool :=
  Passlib.verify password hashed.

(** [expires_delta or timedelta(minutes=...)]: an absent delta and a
    zero delta both give the default. *)
Definition create_access_token (data : dict) (expires_delta : option Z)
    (now : Z) : string :=
  let to_encode := data in
  let delta :=
    match expires_delta with
    | Some d => if (d =? 0)%Z then minutes ACCESS_TOKEN_EXPIRE_MINUTES else d
    | None => minutes ACCESS_TOKEN_EXPIRE_MINUTES
    end in
  let expire := (now + delta)%Z in
  let to_encode := <["exp" := VTime expire]> to_encode in
  Jwt.encode to_encode JWT_SECRET JWT_ALGO.

Definition get_current_user (authorization : option string) (now : Z)
    (db : store) : result dict :=
  if negb (truthy_str authorization)
  then Raise (HTTPException 401 "Missing Authorization header")
  else
    try_except
      (match split " " (default "" authorization) with
       | [scheme; token] =>
           if negb (String.eqb (lower scheme) "bearer")
           then Raise (Error "Exception" "Invalid auth scheme")
           else
             payload ← Jwt.decode token JWT_SECRET [JWT_ALGO] now;
             let user_id := get payload "sub" in
             if negb (truthy user_id)
             then Raise (Error "Exception" "Invalid token")
             else
               let users :=
                 get_documents "user" (Some {["email" := user_id]}) (Some 1) db in
               match users with
               | [] => Raise (Error "Exception" "User not found")
               | u :: _ => Ok u
               end
       | [] | [_] =>
           Raise (Error "ValueError"
                        "not enough values to unpack (expected 2, got 1)")
       | _ =>
           Raise (Error "ValueError" "too many values to unpack (expected 2)")
       end)
      (fun e => Raise (HTTPException 401 ("Invalid token: " ++ str_exn e))).

(** [Depends(get_current_user)]: the handler body runs only once the
    caller is resolved; otherwise the request ends with the error and
    the store is left as it was. *)
Definition Depends {R} (handler : dict -> store -> result R * store)
    (authorization : option string) (now : Z) (db : store)
  : result R * store :=
  match get_current_user authorization now db with
  | Ok current_user => handler current_user db
  | Raise e => (Raise e, db)
  end.

(** *** Public routes *)

Definition register (payload : AuthPayload.t) (salt : string) (now : Z)
    (db : store) : result TokenResponse.t * store :=
  let existing :=
    get_documents "user" (Some {["email" := VStr (AuthPayload.email payload)]})
                  (Some 1) db in
  match existing with
  | _ :: _ => (Raise (HTTPException 400 "Email already registered"), db)
  | [] =>
      match hash_password salt (AuthPayload.password payload) with
      | Raise e => (Raise e, db)
      | Ok hashed =>
          let user :=
            {| User.name :=
                 or_str (AuthPayload.name payload)
                        (first (split "@" (AuthPayload.email payload)));
               User.email := AuthPayload.email payload;
               User.hashed_password := hashed;
               User.role :=
                 match get_documents "user" None None db with
                 | [] => "admin"
                 | _ :: _ => "member"
                 end;
               User.is_active := true |} in
          let '(_id, db') := create_document "user" (User.model_dump user) db in
          let token :=
            create_access_token {["sub" := VStr (AuthPayload.email payload)]}
                                None now in
          (Ok {| TokenResponse.access_token := token;
                 TokenResponse.token_type := "bearer" |}, db')
      end
  end.

Definition login (payload : AuthPayload.t) (now : Z) (db : store)
  : result TokenResponse.t * store :=
  let users :=
    get_documents "user" (Some {["email" := VStr (AuthPayload.email payload)]})
                  (Some 1) db in
  match users with
  | [] => (Raise (HTTPException 401 "Invalid credentials"), db)
  | user :: _ =>
      match verify_password (AuthPayload.password payload)
                            (get_default user "hashed_password" (VStr "")) with
      | Raise e => (Raise e, db)
      | Ok false => (Raise (HTTPException 401 "Invalid credentials"), db)
      | Ok true =>
          let token :=
            create_access_token {["sub" := VStr (AuthPayload.email payload)]}
                                None now in
          (Ok {| TokenResponse.access_token := token;
                 TokenResponse.token_type := "bearer" |}, db)
      end
  end.

(** *** Protected project and entities *)

Definition create_project (data : ProjectIn.t) (current_user : dict)
    (db : store) : result dict * store :=
  let project :=
    {| Project.name := ProjectIn.name data;
       Project.description := ProjectIn.description data;
       Project.owner_id := Some (str (get current_user "_id"));
       Project.status := "active" |} in
  let '(_id, db') := create_document "project" (Project.model_dump project) db in
  (Ok (<["_id" := VStr _id]> (Project.model_dump project)), db').

Definition list_projects (current_user : dict) (db : store)
  : result (list dict) * store :=
  let projects :=
    get_documents "project"
      (Some {["owner_id" := VStr (str (get current_user "_id"))]}) None db in
  (Ok projects, db).

Definition add_metric (data : MetricIn.t) (current_user : dict) (db : store)
  : result dict * store :=
  let metric :=
    {| ScorecardMetric.project_id := MetricIn.project_id data;
       ScorecardMetric.title := MetricIn.title data;
       ScorecardMetric.description := MetricIn.description data;
       ScorecardMetric.target_value := MetricIn.target_value data;
       ScorecardMetric.current_value := MetricIn.current_value data;
       ScorecardMetric.unit := MetricIn.unit data;
       ScorecardMetric.due_date := MetricIn.due_date data |} in
  let '(_id, db') :=
    create_document "scorecardmetric" (ScorecardMetric.model_dump metric) db in
  (Ok (<["_id" := VStr _id]> (ScorecardMetric.model_dump metric)), db').

Definition get_metrics (project_id : string) (current_user : dict)
    (db : store) : result (list dict) * store :=
  let items :=
    get_documents "scorecardmetric"
      (Some {["project_id" := VStr project_id]}) None db in
  (Ok items, db).

Definition add_action (data : ActionIn.t) (current_user : dict) (db : store)
  : result dict * store :=
  let action :=
    {| ActionPlanItem.project_id := ActionIn.project_id data;
       ActionPlanItem.title := ActionIn.title data;
       ActionPlanItem.description := ActionIn.description data;
       ActionPlanItem.owner_id := ActionIn.owner_id data;
       ActionPlanItem.status := ActionIn.status data;
       ActionPlanItem.due_date := ActionIn.due_date data |} in
  let '(_id, db') :=
    create_document "actionplanitem" (ActionPlanItem.model_dump action) db in
  (Ok (<["_id" := VStr _id]> (ActionPlanItem.model_dump action)), db').

Definition get_actions (project_id : string) (current_user : dict)
    (db : store) : result (list dict) * store :=
  let items :=
    get_documents "actionplanitem"
      (Some {["project_id" := VStr project_id]}) None db in
  (Ok items, db).

Definition add_timeline_item (data : TimelineIn.t) (current_user : dict)
    (db : store) : result dict * store :=
  let item :=
    {| TimelineItem.project_id := TimelineIn.project_id data;
       TimelineItem.type := TimelineIn.type data;
       TimelineItem.title := TimelineIn.title data;
       TimelineItem.description := TimelineIn.description data;
       TimelineItem.start_date := TimelineIn.start_date data;
       TimelineItem.end_date := TimelineIn.end_date data |} in
  let '(_id, db') :=
    create_document "timelineitem" (TimelineItem.model_dump item) db in
  (Ok (<["_id" := VStr _id]> (TimelineItem.model_dump item)), db').

Definition get_timeline (project_id : string) (current_user : dict)
    (db : store) : result (list dict) * store :=
  let items :=
    get_documents "timelineitem"
      (Some {["project_id" := VStr project_id]}) None db in
  (Ok items, db).

Definition add_task (data : TaskIn.t) (current_user : dict) (db : store)
  : result dict * store :=
  let task :=
    {| Task.project_id := TaskIn.project_id data;
       Task.timeline_item_id := TaskIn.timeline_item_id data;
       Task.title := TaskIn.title data;
       Task.description := TaskIn.description data;
       Task.assignee_id := TaskIn.assignee_id data;
       Task.status := TaskIn.status data;
       Task.due_date := TaskIn.due_date data |} in
  let '(_id, db') := create_document "task" (Task.model_dump task) db in
  (Ok (<["_id" := VStr _id]> (Task.model_dump task)), db').

Definition get_tasks (timeline_item_id : string) (current_user : dict)
    (db : store) : result (list dict) * store :=
  let items :=
    get_documents "task"
      (Some {["timeline_item_id" := VStr timeline_item_id]}) None db in
  (Ok items, db).

Definition add_comment (data : CommentIn.t) (current_user : dict)
    (db : store) : result dict * store :=
  let comment :=
    {| Comment.project_id := CommentIn.project_id data;
       Comment.content := CommentIn.content data;
       Comment.timeline_item_id := CommentIn.timeline_item_id data;
       Comment.task_id := CommentIn.task_id data;
       Comment.author_id := Some (str (get current_user "_id")) |} in
  let '(_id, db') := create_document "comment" (Comment.model_dump comment) db in
  (Ok (<["_id" := VStr _id]> (Comment.model_dump comment)), db').

Definition get_comments (project_id : string) (current_user : dict)
    (db : store) : result (list dict) * store :=
  let items :=
    get_documents "comment" (Some {["project_id" := VStr project_id]}) None db in
  (Ok items, db).

Definition add_document (data : DocumentIn.t) (current_user : dict)
    (db : store) : result dict * store :=
  let doc :=
    {| Document.project_id := DocumentIn.project_id data;
       Document.name := DocumentIn.name data;
       Document.url := DocumentIn.url data;
       Document.timeline_item_id := DocumentIn.timeline_item_id data;
       Document.task_id := DocumentIn.task_id data;
       Document.uploaded_by := Some (str (get current_user "_id")) |} in
  let '(_id, db') := create_document "document" (Document.model_dump doc) db in
  (Ok (<["_id" := VStr _id]> (Document.model_dump doc)), db').

Definition get_documents_for_project (project_id : string)
    (current_user : dict) (db : store) : result (list dict) * store :=
  let items :=
    get_documents "document" (Some {["project_id" := VStr project_id]}) None db in
  (Ok items, db).

(** *** The protected routes, as the application serves them *)

Inductive request : Type :=
| POST_projects (data : ProjectIn.t)
| GET_projects
| POST_metrics (data : MetricIn.t)
| GET_metrics (project_id : string)
| POST_actions (data : ActionIn.t)
| GET_actions (project_id : string)
| POST_timeline (data : TimelineIn.t)
| GET_timeline (project_id : string)
| POST_tasks (data : TaskIn.t)
| GET_tasks (timeline_item_id : string)
| POST_comments (data : CommentIn.t)
| GET_comments (project_id : string)
| POST_documents (data : DocumentIn.t)
| GET_documents (project_id : string).

Inductive response : Type :=
| one (d : dict)
| many (l : list dict).

Definition reply {A} (wrap : A -> response) (r : result A * store)
  : result response * store :=
  (match fst r with Ok a => Ok (wrap a) | Raise e => Raise e end, snd r).

Definition handler (req : request) (current_user : dict) (db : store)
  : result response * store :=
  match req with
  | POST_projects data => reply one (create_project data current_user db)
  | GET_projects => reply many (list_projects current_user db)
  | POST_metrics data => reply one (add_metric data current_user db)
  | GET_metrics p => reply many (get_metrics p current_user db)
  | POST_actions data => reply one (add_action data current_user db)
  | GET_actions p => reply many (get_actions p current_user db)
  | POST_timeline data => reply one (add_timeline_item data current_user db)
  | GET_timeline p => reply many (get_timeline p current_user db)
  | POST_tasks data => reply one (add_task data current_user db)
  | GET_tasks t => reply many (get_tasks t current_user db)
  | POST_comments data => reply one (add_comment data current_user db)
  | GET_comments p => reply many (get_comments p current_user db)
  | POST_documents data => reply one (add_document data current_user db)
  | GET_documents p => reply many (get_documents_for_project p current_user db)
  end.

(** A request to a protected route, with its [Authorization] header. *)
Definition serve (req : request) (authorization : option string) (now : Z)
    (db : store) : result response * store :=
  Depends (handler req) authorization now db.

End Handlers.

End Main.

(** ** A concrete back end

    A small instance of the two library interfaces, on which the handlers
    can be run: the digest keeps the first 31 characters of the secret
    (mapped into the alphabet and padded), and a token spells out the
    subject, the key and the expiry in binary. *)

Module Demo.

Fixpoint map_str (f : ascii -> ascii) (s : string) : string :=
  match s with
  | EmptyString => EmptyString
  | String c r => String (f c) (map_str f r)
  end.

Definition to_h64 (c : ascii) : ascii :=
  if Passlib.is_h64 c then c else "."%char.

Definition padding : string := "...............................".

Definition demo_hashpw (config secret : string) : string :=
  take_str 31 (map_str to_h64 secret ++ padding).

Definition bcrypt : Passlib.Bcrypt := {| Passlib.hashpw := demo_hashpw |}.

(** Tokens are made of characters other than the space. *)
Definition not_space (c : ascii) : bool := negb (Ascii.eqb c " ").

Definition bit_char (b : bool) : ascii := if b then "1"%char else "0"%char.

Definition char_bit (c : ascii) : option bool :=
  if Ascii.eqb c "0" then Some false
  else if Ascii.eqb c "1" then Some true
  else None.

(** Eight binary digits per character. *)
Fixpoint bits (s : string) : string :=
  match s with
  | EmptyString => EmptyString
  | String (Ascii b0 b1 b2 b3 b4 b5 b6 b7) r =>
      String (bit_char b0) (String (bit_char b1) (String (bit_char b2)
      (String (bit_char b3) (String (bit_char b4) (String (bit_char b5)
      (String (bit_char b6) (String (bit_char b7) (bits r))))))))
  end.

(** Read characters back up to the next ["."]; also gives what follows. *)
Fixpoint unbits (t : string) : option (string * string) :=
  match t with
  | EmptyString => None
  | String c0 t0 =>
      if Ascii.eqb c0 "." then Some (EmptyString, t0)
      else
        match t0 with
        | String c1 (String c2 (String c3 (String c4 (String c5
            (String c6 (String c7 r)))))) =>
            match char_bit c0, char_bit c1, char_bit c2, char_bit c3,
                  char_bit c4, char_bit c5, char_bit c6, char_bit c7,
                  unbits r with
            | Some b0, Some b1, Some b2, Some b3,
              Some b4, Some b5, Some b6, Some b7, Some (s, rest) =>
                Some (String (Ascii b0 b1 b2 b3 b4 b5 b6 b7) s, rest)
            | _, _, _, _, _, _, _, _, _ => None
            end
        | _ => None
        end
  end.

Fixpoint pos_digits (p : positive) : string :=
  match p with
  | xH => EmptyString
  | xO q => String "0" (pos_digits q)
  | xI q => String "1" (pos_digits q)
  end.

Fixpoint digits_pos (s : string) : option positive :=
  match s with
  | EmptyString => Some xH
  | String c r =>
      match char_bit c, digits_pos r with
      | Some false, Some q => Some (xO q)
      | Some true, Some q => Some (xI q)
      | _, _ => None
      end
  end.

Definition int_digits (z : Z) : string :=
  match z with
  | Z0 => "z"
  | Zpos p => String "p" (pos_digits p)
  | Zneg p => String "n" (pos_digits p)
  end.

Definition digits_int (s : string) : option Z :=
  match s with
  | String c r =>
      if Ascii.eqb c "z" then (if String.eqb r "" then Some 0%Z else None)
      else if Ascii.eqb c "p" then Zpos <$> digits_pos r
      else if Ascii.eqb c "n" then Zneg <$> digits_pos r
      else None
  | EmptyString => None
  end.

(** A token is [subject.key.expiry]; a payload without a string subject
    has an empty subject, one without a time has expiry zero. *)
Definition demo_encode (payload : dict) (key alg : string) : string :=
  let sub := match payload !! "sub" with Some (VStr s) => s | _ => "" end in
  let exp := match payload !! "exp" with Some (VTime t) => t | _ => 0%Z end in
  bits sub ++ "." ++ bits key ++ "." ++ int_digits exp.

Definition demo_decode (token key : string) (algs : list string) (now : Z)
  : result dict :=
  match unbits token with
  | Some (sub, rest) =>
      match unbits rest with
      | Some (key', rest') =>
          match digits_int rest' with
          | Some exp =>
              if negb (String.eqb key' key)
              then Raise (Error "InvalidSignatureError"
                                "Signature verification failed")
              else if (exp <=? now)%Z
              then Raise (Error "ExpiredSignatureError" "Signature has expired")
              else Ok (<["exp" := VInt exp]> {["sub" := VStr sub]})
          | None => Raise (Error "DecodeError" "Invalid payload")
          end
      | None => Raise (Error "DecodeError" "Not enough segments")
      end
  | None => Raise (Error "DecodeError" "Not enough segments")
  end.

Definition jwt : Jwt.Codec :=
  {| Jwt.encode := demo_encode; Jwt.decode := demo_decode |}.

Definition env : Main.Env :=
  {| Main.JWT_SECRET := "dev-secret-change";
     Main.env_bcrypt := bcrypt;
     Main.env_jwt := jwt |}.

Definition salt : string := "abcdefghijklmnopqrstuv".

Definition alice : Main.AuthPayload.t :=
  {| Main.AuthPayload.email := "alice@example.com";
     Main.AuthPayload.password := "wonderland";
     Main.AuthPayload.name := None |}.

Definition bob : Main.AuthPayload.t :=
  {| Main.AuthPayload.email := "bob@example.com";
     Main.AuthPayload.password := "builder";
     Main.AuthPayload.name := Some "Bob" |}.

Definition alice_blank : Main.AuthPayload.t :=
  {| Main.AuthPayload.email := "alice@example.com";
     Main.AuthPayload.password := "wonderland";
     Main.AuthPayload.name := Some "" |}.

(** The store after alice, then bob, have registered. *)
Definition one_user : store :=
  snd (Main.register (env := env) alice salt 100 Database.empty).

Definition two_users : store :=
  snd (Main.register (env := env) bob salt 200 one_user).

Definition alice_wrong : Main.AuthPayload.t :=
  {| Main.AuthPayload.email := "alice@example.com";
     Main.AuthPayload.password := "builder";
     Main.AuthPayload.name := None |}.

Definition carol : Main.AuthPayload.t :=
  {| Main.AuthPayload.email := "carol@example.com";
     Main.AuthPayload.password := "looking-glass";
     Main.AuthPayload.name := None |}.

(** A store holding a user record that has no [hashed_password]. *)
Definition legacy_store : store :=
  snd (create_document "user" {["email" := VStr "carol@example.com"]}
                       Database.empty).

Definition user0 : dict :=
  <["_id" := VOid 0]> {["email" := VStr "alice@example.com"]}.

Definition user1 : dict :=
  <["_id" := VOid 1]> {["email" := VStr "bob@example.com"]}.

Definition audit_q1 : Main.ProjectIn.t :=
  {| Main.ProjectIn.name := "Audit Q1"; Main.ProjectIn.description := None |}.

Definition uptime : Main.MetricIn.t :=
  {| Main.MetricIn.project_id := "0";
     Main.MetricIn.title := "Uptime";
     Main.MetricIn.description := None;
     Main.MetricIn.target_value := S754_zero false;
     Main.MetricIn.current_value := S754_zero false;
     Main.MetricIn.unit := "%";
     Main.MetricIn.due_date := None |}.

Definition remark : Main.CommentIn.t :=
  {| Main.CommentIn.project_id := "0";
     Main.CommentIn.content := "Looks fine";
     Main.CommentIn.timeline_item_id := None;
     Main.CommentIn.task_id := None |}.

Definition charter : Main.DocumentIn.t :=
  {| Main.DocumentIn.project_id := "0";
     Main.DocumentIn.name := "Charter";
     Main.DocumentIn.url := "https://example.com/charter.pdf";
     Main.DocumentIn.timeline_item_id := None;
     Main.DocumentIn.task_id := None |}.

End Demo.

(** ** Vocabulary of the properties *)

Module Runs.
Import Main.

(** One registration request: the body, the salt the hasher draws and
    the time of the call. *)
Definition registration : Type := (AuthPayload.t * string * Z)%type.

(** Run the registrations in order; [None] as soon as one of them does
    not succeed. *)
Fixpoint register_all {env : Env} (reqs : list registration) (db : store)
  : option store :=
  match reqs with
  | [] => Some db
  | (payload, salt, now) :: rest =>
      match register payload salt now db with
      | (Ok _, db') => register_all rest db'
      | (Raise _, _) => None
      end
  end.

(** The role the spec gives to the [i]-th registered user. *)
Definition expected_role (i : nat) : string :=
  match i with O => "admin" | S _ => "member" end.

(** The user record a registration stores. *)
Definition new_user (payload : AuthPayload.t) (hashed : string) (db : store)
  : User.t :=
  {| User.name :=
       or_str (AuthPayload.name payload)
              (first (split "@" (AuthPayload.email payload)));
     User.email := AuthPayload.email payload;
     User.hashed_password := hashed;
     User.role := expected_role (length (collection db "user"));
     User.is_active := true |}.

(** The routes whose handler reads the caller's record. *)
Definition reads_caller (req : request) : bool :=
  match req with
  | POST_projects _ | GET_projects | POST_comments _ | POST_documents _ => true
  | _ => false
  end.

(** A detail string of the form ["Invalid token: <reason>"]. *)
Definition invalid_token_detail (detail : string) : Prop :=
  exists reason, detail = "Invalid token: " ++ reason.

(** The lifetime [create_access_token] gives a token. *)
Definition lifetime (expires_delta : option Z) : Z :=
  match expires_delta with
  | Some d => if (d =? 0)%Z then 28800%Z else d
  | None => 28800%Z
  end.

End Runs.

(** ** Routes, traces and what they touch *)

Module Routes.
Import Main Runs.

(** The collection a protected route inserts into, if it inserts at all. *)
Definition written_collection (req : request) : option string :=
  match req with
  | POST_projects _ => Some "project"
  | POST_metrics _ => Some "scorecardmetric"
  | POST_actions _ => Some "actionplanitem"
  | POST_timeline _ => Some "timelineitem"
  | POST_tasks _ => Some "task"
  | POST_comments _ => Some "comment"
  | POST_documents _ => Some "document"
  | _ => None
  end.

(** For a route that creates a child record, the route that lists the
    records filed under the same parent key. *)
Definition list_route (req : request) : option request :=
  match req with
  | POST_metrics data => Some (GET_metrics (MetricIn.project_id data))
  | POST_actions data => Some (GET_actions (ActionIn.project_id data))
  | POST_timeline data => Some (GET_timeline (TimelineIn.project_id data))
  | POST_tasks data => Some (GET_tasks (TaskIn.timeline_item_id data))
  | POST_comments data => Some (GET_comments (CommentIn.project_id data))
  | POST_documents data => Some (GET_documents (DocumentIn.project_id data))
  | _ => None
  end.

(** The number of occurrences of a character in a string. *)
Fixpoint count_char (c : ascii) (s : string) : nat :=
  match s with
  | EmptyString => O
  | String a r => if Ascii.eqb a c then S (count_char c r) else count_char c r
  end.

(** Run the registrations in order, whether they succeed or not. *)
Fixpoint register_each {env : Env} (reqs : list registration) (db : store)
  : store :=
  match reqs with
  | [] => db
  | (payload, salt, now) :: rest =>
      register_each rest (snd (register payload salt now db))
  end.

(** The [email] field of each document, in order. *)
Definition emails (docs : list dict) : list (option value) :=
  map (fun doc : dict => doc !! "email") docs.

End Routes.

Import Main Runs.

(** * Properties *)

(** ** The store *)

Section StoreFacts.

Lemma matches_empty (doc : dict) : matches ∅ doc = true.
Proof.
  unfold matches. apply bool_decide_eq_true. apply map_Forall_empty.
Qed.

Lemma matches_singleton (k : string) (v : value) (doc : dict) :
  matches {[k := v]} doc = true <-> doc !! k = Some v.
Proof.
  unfold matches. rewrite bool_decide_eq_true.
  apply (map_Forall_singleton (fun k' v' => doc !! k' = Some v')).
Qed.

Lemma collection_create_same name data db :
  collection (snd (create_document name data db)) name
  = (collection db name ++ [<["_id" := VOid (next_oid db)]> data])%list.
Proof.
  unfold create_document, collection. simpl. by rewrite lookup_insert_eq.
Qed.

Lemma collection_create_other name name' data db :
  name <> name' ->
  collection (snd (create_document name data db)) name' = collection db name'.
Proof.
  intros Hne. unfold create_document, collection. simpl.
  by rewrite lookup_insert_ne.
Qed.

Lemma get_documents_all name db :
  get_documents name None None db = collection db name.
Proof.
  unfold get_documents. simpl.
  induction (collection db name) as [|d l IH]; simpl; [done|].
  by rewrite matches_empty, IH.
Qed.

Lemma In_get_documents_by name k v db (doc : dict) :
  In doc (get_documents name (Some {[k := v]}) None db)
  <-> In doc (collection db name) /\ doc !! k = Some v.
Proof.
  unfold get_documents. simpl. rewrite filter_In.
  by rewrite matches_singleton.
Qed.

(** A query on one field, without limit, is the plain filter of the
    collection, in insertion order. *)
Lemma get_documents_by_filter name k v db :
  get_documents name (Some {[k := v]}) None db
  = List.filter (fun doc : dict => bool_decide (doc !! k = Some v))
                (collection db name).
Proof.
  unfold get_documents. simpl. apply filter_ext. intros doc.
  unfold matches. apply bool_decide_ext.
  apply (map_Forall_singleton (fun k' v' => doc !! k' = Some v')).
Qed.

(** A query limited to one answer is empty exactly when no document
    carries the value. *)
Lemma get_documents_one_nil name k v db :
  get_documents name (Some {[k := v]}) (Some 1%nat) db = []
  <-> forall doc : dict, In doc (collection db name) -> doc !! k <> Some v.
Proof.
  unfold get_documents. simpl.
  induction (collection db name) as [|d l IH]; simpl.
  - split; [intros _ doc []|done].
  - destruct (matches {[k := v]} d) eqn:E; simpl.
    + split; [discriminate|]. intros Hall. exfalso.
      apply (Hall d); [by left|]. by apply matches_singleton.
    + rewrite IH. split.
      * intros Hall doc [<-|Hin]; [|by apply Hall].
        intros Hk. apply matches_singleton in Hk. congruence.
      * intros Hall doc Hin. apply Hall. by right.
Qed.

(** What a query limited to one answer returns is a stored document that
    carries the value. *)
Lemma get_documents_one_head name k v db (doc : dict) rest :
  get_documents name (Some {[k := v]}) (Some 1%nat) db = doc :: rest ->
  In doc (collection db name) /\ doc !! k = Some v.
Proof.
  unfold get_documents. simpl. intros Hq.
  assert (Hin : In doc (List.filter (matches {[k := v]}) (collection db name))).
  { destruct (List.filter _ _) as [|x l]; [discriminate|].
    injection Hq as -> _. by left. }
  apply filter_In in Hin as [Hin Hm]. split; [exact Hin|].
  by apply matches_singleton.
Qed.

Lemma str_oid_inj (m n : nat) : str_oid m = str_oid n -> m = n.
Proof.
  unfold str_oid. intros Heq.
  apply HexadecimalNat.Unsigned.to_uint_inj.
  assert (Hs := HexadecimalString.NilEmpty.usu (Nat.to_hex_uint m)).
  rewrite Heq, HexadecimalString.NilEmpty.usu in Hs. congruence.
Qed.

End StoreFacts.

(** ** Projects are scoped to their owner *)

Section Ownership.

Lemma get_oid (U : dict) (u : nat) :
  U !! "_id" = Some (VOid u) -> str (get U "_id") = str_oid u.
Proof. intros HU. unfold get. by rewrite HU. Qed.

Lemma list_projects_spec (W : dict) (db : store) :
  exists l,
    list_projects W db = (Ok l, db)
    /\ l = List.filter
             (fun p : dict =>
                bool_decide (p !! "owner_id" = Some (VStr (str (get W "_id")))))
             (collection db "project")
    /\ forall p : dict,
         In p l <-> In p (collection db "project")
                    /\ p !! "owner_id" = Some (VStr (str (get W "_id"))).
Proof.
  eexists. split; [reflexivity|]. split; [apply get_documents_by_filter|].
  intros p. apply In_get_documents_by.
Qed.

End Ownership.

(** C1. [create_project] stores the project with [owner_id] set to the
    caller's id (the request body [ProjectIn] has no owner field), and
    [list_projects] returns exactly the stored projects whose [owner_id] is
    the caller's id: the project [U] has just created is listed for [U] and
    is not listed for a user [V] with another id. *)
Theorem create_project_owner_scoped
    (data : ProjectIn.t) (U V : dict) (u v : nat) (db : store)
    (HU : U !! "_id" = Some (VOid u)) (HV : V !! "_id" = Some (VOid v))
    (Hne : u <> v) :
  let project :=
    Project.model_dump
      {| Project.name := ProjectIn.name data;
         Project.description := ProjectIn.description data;
         Project.owner_id := Some (str_oid u);
         Project.status := "active" |} in
  let stored := <["_id" := VOid (next_oid db)]> project in
  exists db' mine theirs,
    create_project data U db
      = (Ok (<["_id" := VStr (str_oid (next_oid db))]> project), db')
    /\ collection db' "project" = (collection db "project" ++ [stored])%list
    /\ stored !! "owner_id" = Some (VStr (str_oid u))
    /\ list_projects U db' = (Ok mine, db')
    /\ list_projects V db' = (Ok theirs, db')
    /\ mine = List.filter
                (fun p : dict =>
                   bool_decide (p !! "owner_id" = Some (VStr (str_oid u))))
                (collection db' "project")
    /\ theirs = List.filter
                  (fun p : dict =>
                     bool_decide (p !! "owner_id" = Some (VStr (str_oid v))))
                  (collection db' "project")
    /\ In stored mine
    /\ ~ In stored theirs.
Proof.
  intros project stored.
  set (db' := snd (create_document "project" project db)).
  destruct (list_projects_spec U db') as (mine & Hmine & Heq_mine & Hin_mine).
  destruct (list_projects_spec V db') as (theirs & Htheirs & Heq_theirs & Hin_theirs).
  rewrite (get_oid U u HU) in Hin_mine, Heq_mine.
  rewrite (get_oid V v HV) in Hin_theirs, Heq_theirs.
  assert (Hcoll : collection db' "project"
                  = (collection db "project" ++ [stored])%list)
    by apply collection_create_same.
  assert (Howner : stored !! "owner_id" = Some (VStr (str_oid u)))
    by reflexivity.
  exists db', mine, theirs.
  split.
  { unfold create_project. rewrite (get_oid U u HU). reflexivity. }
  repeat split; try assumption.
  - apply Hin_mine. split; [|exact Howner].
    rewrite Hcoll. apply in_or_app. right. by left.
  - intros Hin. apply Hin_theirs in Hin as [_ Hv].
    rewrite Howner in Hv. injection Hv as Hv.
    apply str_oid_inj in Hv. contradiction.
Qed.

Lemma create_project_owner_scoped_example :
  Demo.user0 !! "_id" = Some (VOid 0)
  /\ Demo.user1 !! "_id" = Some (VOid 1)
  /\ 0%nat <> 1%nat
  /\ exists db' mine theirs,
       list_projects Demo.user0 db' = (Ok mine, db')
       /\ list_projects Demo.user1 db' = (Ok theirs, db')
       /\ (exists p, In p mine /\ ~ In p theirs).
Proof.
  split; [reflexivity|]. split; [reflexivity|]. split; [lia|].
  destruct (create_project_owner_scoped Demo.audit_q1 Demo.user0 Demo.user1
              0 1 Database.empty eq_refl eq_refl ltac:(lia))
    as (db' & mine & theirs & _ & _ & _ & Hm & Ht & _ & _ & Hin & Hout).
  exists db', mine, theirs.
  split; [exact Hm|]. split; [exact Ht|].
  eexists. split; [exact Hin|exact Hout].
Defined.

(** ** Child records are reachable with any caller *)

(** Every handler but project creation and listing, comment creation and
    document creation ignores who calls it. *)
Lemma handler_ignores_caller (req : request) (U V : dict) (db : store) :
  reads_caller req = false -> handler req U db = handler req V db.
Proof. destruct req; try discriminate; reflexivity. Qed.

(** C2. Amended: child-record operations are not ownership-checked.
    [add_metric] and [get_metrics] give the same result whoever the
    authenticated caller is, and a metric added for a project id by any
    caller [U] is returned by [get_metrics] on that project id to any caller
    [V].  The caller does not affect the result of any child-record listing,
    nor of metric, action, timeline-item and task creation; comment and
    document creation succeed for every caller too, and their results differ
    between callers only in the [author_id] / [uploaded_by] they record. *)
Theorem child_records_not_owner_checked
    (data : MetricIn.t) (c : CommentIn.t) (d : DocumentIn.t)
    (U V : dict) (db : store) :
  let metric :=
    ScorecardMetric.model_dump
      {| ScorecardMetric.project_id := MetricIn.project_id data;
         ScorecardMetric.title := MetricIn.title data;
         ScorecardMetric.description := MetricIn.description data;
         ScorecardMetric.target_value := MetricIn.target_value data;
         ScorecardMetric.current_value := MetricIn.current_value data;
         ScorecardMetric.unit := MetricIn.unit data;
         ScorecardMetric.due_date := MetricIn.due_date data |} in
  let stored := <["_id" := VOid (next_oid db)]> metric in
  add_metric data U db = add_metric data V db
  /\ (forall P db0, get_metrics P U db0 = get_metrics P V db0)
  /\ (exists db' items,
       add_metric data U db
         = (Ok (<["_id" := VStr (str_oid (next_oid db))]> metric), db')
       /\ get_metrics (MetricIn.project_id data) U db' = (Ok items, db')
       /\ get_metrics (MetricIn.project_id data) V db' = (Ok items, db')
       /\ In stored items
       /\ forall m : dict,
            In m items <-> In m (collection db' "scorecardmetric")
                           /\ m !! "project_id"
                              = Some (VStr (MetricIn.project_id data)))
  /\ (forall req, reads_caller req = false ->
                  handler req U db = handler req V db)
  /\ (exists rU rV dbU dbV,
       add_comment c U db = (Ok rU, dbU)
       /\ add_comment c V db = (Ok rV, dbV)
       /\ delete "author_id" rU = delete "author_id" rV)
  /\ (exists rU rV dbU dbV,
       add_document d U db = (Ok rU, dbU)
       /\ add_document d V db = (Ok rV, dbV)
       /\ delete "uploaded_by" rU = delete "uploaded_by" rV).
Proof.
  intros metric stored.
  split; [reflexivity|]. split; [reflexivity|].
  split; [|split; [|split]].
  - set (db' := snd (create_document "scorecardmetric" metric db)).
    exists db'. eexists.
    split; [reflexivity|]. split; [reflexivity|]. split; [reflexivity|].
    split.
    + apply In_get_documents_by. split; [|reflexivity].
      unfold db'. rewrite collection_create_same.
      apply in_or_app. right. by left.
    + intros m. apply In_get_documents_by.
  - intros req Hreq. by apply handler_ignores_caller.
  - eexists _, _, _, _. split; [reflexivity|]. split; reflexivity.
  - eexists _, _, _, _. split; [reflexivity|]. split; reflexivity.
Qed.

Lemma child_records_not_owner_checked_example :
  reads_caller (GET_comments "0") = false
  /\ handler (GET_comments "0") Demo.user0 Database.empty
     = handler (GET_comments "0") Demo.user1 Database.empty
  /\ add_metric Demo.uptime Demo.user0 Database.empty
     = add_metric Demo.uptime Demo.user1 Database.empty.
Proof.
  destruct (child_records_not_owner_checked Demo.uptime Demo.remark
              Demo.charter Demo.user0 Demo.user1 Database.empty)
    as (Hadd & _ & _ & Hblind & _).
  split; [reflexivity|]. split; [exact (Hblind (GET_comments "0") eq_refl)|exact Hadd].
Defined.

(** The claim as written fails for comment creation: the record stored
    and returned carries the caller's id, so two callers get different
    results. *)
Lemma add_comment_depends_on_caller :
  add_comment Demo.remark Demo.user0 Database.empty
  <> add_comment Demo.remark Demo.user1 Database.empty
  /\ (exists r db', add_comment Demo.remark Demo.user0 Database.empty = (Ok r, db')
                   /\ r !! "author_id" = Some (VStr "0"))
  /\ (exists r db', add_comment Demo.remark Demo.user1 Database.empty = (Ok r, db')
                   /\ r !! "author_id" = Some (VStr "1")).
Proof.
  split; [|split].
  - intros Heq.
    apply (f_equal (fun r : result dict * store =>
                      match fst r with
                      | Ok x => x !! "author_id"
                      | Raise _ => None
                      end)) in Heq.
    vm_compute in Heq. discriminate Heq.
  - eexists _, _. split; reflexivity.
  - eexists _, _. split; reflexivity.
Qed.

(** ** Authorship is stamped by the server *)

(** A creation handler returns its record and appends the stored one to
    the collection; the fields of both are read off by computation. *)
Ltac stored_record :=
  eexists _, _, _;
  split; [reflexivity|];
  split; [apply collection_create_same|];
  repeat split; reflexivity.

(** C10. [add_comment] stores [author_id] and [add_document] stores
    [uploaded_by] equal to the caller's id, in the stored record and in the
    record returned; the request bodies [CommentIn] and [DocumentIn] have no
    such field. *)
Theorem authorship_server_stamped
    (c : CommentIn.t) (d : DocumentIn.t) (U : dict) (u : nat) (db : store)
    (HU : U !! "_id" = Some (VOid u)) :
  (exists stored returned db',
      add_comment c U db = (Ok returned, db')
      /\ collection db' "comment" = (collection db "comment" ++ [stored])%list
      /\ stored !! "author_id" = Some (VStr (str_oid u))
      /\ returned !! "author_id" = Some (VStr (str_oid u))
      /\ stored !! "content" = Some (VStr (CommentIn.content c))
      /\ stored !! "project_id" = Some (VStr (CommentIn.project_id c)))
  /\ (exists stored returned db',
      add_document d U db = (Ok returned, db')
      /\ collection db' "document" = (collection db "document" ++ [stored])%list
      /\ stored !! "uploaded_by" = Some (VStr (str_oid u))
      /\ returned !! "uploaded_by" = Some (VStr (str_oid u))
      /\ stored !! "name" = Some (VStr (DocumentIn.name d))
      /\ stored !! "project_id" = Some (VStr (DocumentIn.project_id d))).
Proof.
  split.
  - unfold add_comment. rewrite (get_oid U u HU). stored_record.
  - unfold add_document. rewrite (get_oid U u HU). stored_record.
Qed.

Lemma authorship_server_stamped_example :
  Demo.user1 !! "_id" = Some (VOid 1)
  /\ (exists returned db',
        add_comment Demo.remark Demo.user1 Database.empty = (Ok returned, db')
        /\ returned !! "author_id" = Some (VStr "1"))
  /\ (exists returned db',
        add_document Demo.charter Demo.user1 Database.empty = (Ok returned, db')
        /\ returned !! "uploaded_by" = Some (VStr "1")).
Proof.
  split; [reflexivity|].
  destruct (authorship_server_stamped Demo.remark Demo.charter Demo.user1 1
              Database.empty eq_refl)
    as [(_ & r1 & db1 & H1 & _ & _ & Ha & _) (_ & r2 & db2 & H2 & _ & _ & Hb & _)].
  split; [exists r1, db1|exists r2, db2]; split; assumption.
Defined.

(** ** Registration *)

Section Registration.
Context {env : Env}.

(** What a successful registration has done. *)
Lemma register_ok payload salt now db tok db' :
  register payload salt now db = (Ok tok, db') ->
  exists hashed,
    hash_password salt (AuthPayload.password payload) = Ok hashed
    /\ (forall doc : dict, In doc (collection db "user") ->
          doc !! "email" <> Some (VStr (AuthPayload.email payload)))
    /\ collection db' "user"
       = (collection db "user"
          ++ [<["_id" := VOid (next_oid db)]>
                (User.model_dump (new_user payload hashed db))])%list
    /\ TokenResponse.access_token tok
       = create_access_token {["sub" := VStr (AuthPayload.email payload)]}
                             None now.
Proof.
  unfold register. intros Hreg.
  destruct (get_documents "user" _ (Some 1%nat) db) as [|e es] eqn:Hex;
    [|discriminate].
  destruct (hash_password salt (AuthPayload.password payload))
    as [hashed|e] eqn:Hh; [|discriminate].
  exists hashed. split; [reflexivity|].
  split; [by apply get_documents_one_nil|].
  rewrite get_documents_all in Hreg.
  replace (match collection db "user" with [] => "admin" | _ :: _ => "member" end)
    with (expected_role (length (collection db "user"))) in Hreg
    by (by destruct (collection db "user")).
  fold (new_user payload hashed db) in Hreg.
  destruct (create_document "user" _ db) as [_id db1] eqn:Hc.
  injection Hreg as <- <-. split; [|reflexivity].
  replace db1 with (snd (create_document "user"
                           (User.model_dump (new_user payload hashed db)) db))
    by (by rewrite Hc).
  apply collection_create_same.
Qed.

Lemma register_all_roles (reqs : list registration) :
  forall db db',
    register_all reqs db = Some db' ->
    exists new : list dict,
      collection db' "user" = (collection db "user" ++ new)%list
      /\ length new = length reqs
      /\ forall (i : nat) (u : dict),
           new !! i = Some u ->
           u !! "role"
           = Some (VStr (expected_role (length (collection db "user") + i))).
Proof.
  induction reqs as [|[[payload salt] now] rest IH]; intros db db' Hrun.
  - injection Hrun as <-. exists []. split; [by rewrite app_nil_r|].
    split; [done|]. intros i u Hi. by rewrite lookup_nil in Hi.
  - simpl in Hrun.
    destruct (register payload salt now db) as [[tok|e] db1] eqn:Hreg;
      [|discriminate].
    apply register_ok in Hreg as (hashed & _ & _ & Hcoll & _).
    apply IH in Hrun as (new & Hcoll' & Hlen & Hroles).
    exists (<["_id" := VOid (next_oid db)]>
              (User.model_dump (new_user payload hashed db)) :: new).
    split; [by rewrite Hcoll', Hcoll, <- app_assoc|].
    split; [simpl; by rewrite Hlen|].
    intros [|i] u Hi.
    + injection Hi as <-. by rewrite Nat.add_0_r.
    + simpl in Hi. apply Hroles in Hi.
      rewrite Hcoll, length_app in Hi. simpl in Hi.
      by replace (length (collection db "user") + S i)%nat
        with (length (collection db "user") + 1 + i)%nat by lia.
Qed.

End Registration.

(** C3. Starting from a store with no user, after any sequence of
    registrations that all succeed there is one stored user per
    registration, the first with role ["admin"] and every later one with
    role ["member"]. *)
Theorem first_user_admin_others_member {env : Env}
    (reqs : list registration) (db db' : store)
    (Hempty : collection db "user" = [])
    (Hrun : register_all reqs db = Some db') :
  length (collection db' "user") = length reqs
  /\ forall (i : nat) (u : dict),
       collection db' "user" !! i = Some u ->
       u !! "role" = Some (VStr (expected_role i))
       /\ (i = 0%nat -> u !! "role" = Some (VStr "admin"))
       /\ (i <> 0%nat -> u !! "role" = Some (VStr "member")).
Proof.
  apply register_all_roles in Hrun as (new & Hcoll & Hlen & Hroles).
  rewrite Hempty in Hcoll, Hroles. simpl in Hcoll, Hroles.
  rewrite Hcoll. split; [exact Hlen|].
  intros i u Hi. apply Hroles in Hi.
  split; [exact Hi|]. split.
  - intros ->. exact Hi.
  - intros Hne. destruct i; [done|exact Hi].
Qed.

Lemma first_user_admin_others_member_example :
  collection Database.empty "user" = []
  /\ register_all (env := Demo.env)
       [(Demo.alice, Demo.salt, 100%Z); (Demo.bob, Demo.salt, 200%Z)]
       Database.empty = Some Demo.two_users
  /\ length (collection Demo.two_users "user") = 2%nat
  /\ forall (i : nat) (u : dict),
       collection Demo.two_users "user" !! i = Some u ->
       u !! "role" = Some (VStr (expected_role i))
       /\ (i = 0%nat -> u !! "role" = Some (VStr "admin"))
       /\ (i <> 0%nat -> u !! "role" = Some (VStr "member")).
Proof.
  split; [reflexivity|]. split; [reflexivity|].
  exact (first_user_admin_others_member (env := Demo.env)
           [(Demo.alice, Demo.salt, 100%Z); (Demo.bob, Demo.salt, 200%Z)]
           Database.empty Demo.two_users eq_refl eq_refl).
Defined.

(** C5. Registering an email that a stored user already has fails with
    status 400 and detail ["Email already registered"]; the store is left as
    it was, so no user is inserted, and no token is returned. *)
Theorem register_duplicate_email {env : Env}
    (payload : AuthPayload.t) (salt : string) (now : Z) (db : store)
    (Hdup : exists doc : dict,
        In doc (collection db "user")
        /\ doc !! "email" = Some (VStr (AuthPayload.email payload))) :
  register payload salt now db
  = (Raise (HTTPException 400 "Email already registered"), db).
Proof.
  destruct Hdup as (doc & Hin & Hemail).
  unfold register.
  destruct (get_documents "user" _ (Some 1%nat) db) as [|e es] eqn:Hex;
    [|reflexivity].
  exfalso. eapply get_documents_one_nil; eauto.
Qed.

Lemma register_duplicate_email_example :
  (exists doc : dict,
      In doc (collection Demo.one_user "user")
      /\ doc !! "email" = Some (VStr (AuthPayload.email Demo.alice)))
  /\ register (env := Demo.env) Demo.alice Demo.salt 300 Demo.one_user
     = (Raise (HTTPException 400 "Email already registered"), Demo.one_user).
Proof.
  assert (Hdup : exists doc : dict,
             In doc (collection Demo.one_user "user")
             /\ doc !! "email" = Some (VStr (AuthPayload.email Demo.alice))).
  { eexists. split; [left; reflexivity|reflexivity]. }
  split; [exact Hdup|].
  exact (register_duplicate_email (env := Demo.env) Demo.alice Demo.salt 300
           Demo.one_user Hdup).
Defined.

(** ** Strings *)

Section StringFacts.

Lemma length_append (a b : string) :
  String.length (a ++ b) = (String.length a + String.length b)%nat.
Proof. induction a as [|c a IH]; simpl; [done|by rewrite IH]. Qed.

Lemma append_String (c : ascii) (a b : string) :
  String c a ++ b = String c (a ++ b).
Proof. reflexivity. Qed.

Lemma all_chars_append f (a b : string) :
  all_chars f (a ++ b) = all_chars f a && all_chars f b.
Proof.
  induction a as [|c a IH]; simpl; [done|].
  by rewrite IH, andb_assoc.
Qed.

Lemma take_str_append (a b : string) :
  take_str (String.length a) (a ++ b) = a.
Proof. induction a as [|c a IH]; simpl; [by destruct b|by rewrite IH]. Qed.

Lemma drop_str_append (a b : string) :
  drop_str (String.length a) (a ++ b) = b.
Proof. induction a as [|c a IH]; simpl; [by destruct b|exact IH]. Qed.

Lemma length_take_str (n : nat) (s : string) :
  (n <= String.length s)%nat -> String.length (take_str n s) = n.
Proof.
  revert s. induction n as [|n IH]; intros [|c s] Hle; simpl in *;
    try done; try lia.
  rewrite IH; [done|lia].
Qed.

Lemma all_chars_take_str f (n : nat) (s : string) :
  all_chars f s = true -> all_chars f (take_str n s) = true.
Proof.
  revert s. induction n as [|n IH]; intros [|c s]; simpl; try done.
  intros [Hc Hs]%andb_true_iff. rewrite Hc. by apply IH.
Qed.

(** Without the separator in it, a string is its own single piece. *)
Lemma split_none (sep : ascii) (s : string) :
  all_chars (fun c => negb (Ascii.eqb c sep)) s = true -> split sep s = [s].
Proof.
  induction s as [|c s IH]; simpl; [done|].
  intros [Hc Hs]%andb_true_iff.
  apply negb_true_iff in Hc. rewrite Hc, (IH Hs). reflexivity.
Qed.

(** The first piece of a split is what precedes the first separator. *)
Lemma first_split_before (sep : ascii) (l r : string) :
  all_chars (fun c => negb (Ascii.eqb c sep)) l = true ->
  first (split sep (l ++ String sep r)) = l.
Proof.
  induction l as [|c l IH]; simpl.
  - intros _. by rewrite Ascii.eqb_refl.
  - intros [Hc Hl]%andb_true_iff.
    apply negb_true_iff in Hc. rewrite Hc.
    specialize (IH Hl).
    destruct (split sep (l ++ String sep r)) as [|h t]; simpl in *;
      by rewrite IH.
Qed.

Lemma split_bearer (token : string) :
  split " " ("Bearer " ++ token) = "Bearer" :: split " " token.
Proof. reflexivity. Qed.

End StringFacts.

(** C9. Amended: when [register] is called with no name, or with an empty
    one, the stored user's name is the part of the email before the first
    ["@"] (the whole email when it has none); when a non-empty name is
    supplied, that name is stored unchanged. *)
Theorem register_stored_name {env : Env}
    (payload : AuthPayload.t) (salt : string) (now : Z) (db db' : store)
    (tok : TokenResponse.t)
    (Hreg : register payload salt now db = (Ok tok, db')) :
  exists u : dict,
    collection db' "user" = (collection db "user" ++ [u])%list
    /\ (forall n, AuthPayload.name payload = Some n -> n <> "" ->
          u !! "name" = Some (VStr n))
    /\ (AuthPayload.name payload = None \/ AuthPayload.name payload = Some "" ->
          u !! "name"
          = Some (VStr (first (split "@" (AuthPayload.email payload))))
          /\ (forall l r,
                AuthPayload.email payload = l ++ "@" ++ r ->
                all_chars (fun c => negb (Ascii.eqb c "@")) l = true ->
                u !! "name" = Some (VStr l))
          /\ (all_chars (fun c => negb (Ascii.eqb c "@"))
                        (AuthPayload.email payload) = true ->
              u !! "name" = Some (VStr (AuthPayload.email payload)))).
Proof.
  apply register_ok in Hreg as (hashed & _ & _ & Hcoll & _).
  eexists. split; [exact Hcoll|].
  assert (Hname : forall db0 : nat,
             (<["_id" := VOid db0]>
                (User.model_dump (new_user payload hashed db)) : dict) !! "name"
             = Some (VStr (or_str (AuthPayload.name payload)
                             (first (split "@" (AuthPayload.email payload))))))
    by reflexivity.
  rewrite Hname. split.
  - intros n -> Hn. simpl. apply String.eqb_neq in Hn. by rewrite Hn.
  - intros Hnone.
    assert (Hor : or_str (AuthPayload.name payload)
                    (first (split "@" (AuthPayload.email payload)))
                  = first (split "@" (AuthPayload.email payload)))
      by (destruct Hnone as [-> | ->]; reflexivity).
    rewrite Hor. split; [reflexivity|]. split.
    + intros l r -> Hl.
      change (l ++ "@" ++ r) with (l ++ String "@" r).
      by rewrite first_split_before.
    + intros Hno. by rewrite split_none.
Qed.

Lemma register_stored_name_example :
  register (env := Demo.env) Demo.alice Demo.salt 100 Database.empty
  = (fst (register (env := Demo.env) Demo.alice Demo.salt 100 Database.empty),
     Demo.one_user)
  /\ exists u : dict,
       collection Demo.one_user "user" = [u]
       /\ u !! "name" = Some (VStr "alice").
Proof.
  split; [reflexivity|].
  destruct (register_stored_name (env := Demo.env) Demo.alice Demo.salt 100
              Database.empty
              Demo.one_user _ eq_refl) as (u & Hcoll & _ & Hnone).
  exists u. split; [exact Hcoll|].
  destruct (Hnone (or_introl eq_refl)) as (_ & Hlocal & _).
  exact (Hlocal "alice" "example.com" eq_refl eq_refl).
Defined.

(** The claim as written fails when the name supplied is the empty
    string: the email's local part is stored instead of it. *)
Lemma register_empty_name_replaced :
  AuthPayload.name Demo.alice_blank = Some ""
  /\ exists (tok : TokenResponse.t) (db' : store) (u : dict),
       register (env := Demo.env) Demo.alice_blank Demo.salt 100 Database.empty
       = (Ok tok, db')
       /\ collection db' "user" = [u]
       /\ u !! "name" = Some (VStr "alice")
       /\ u !! "name" <> Some (VStr "").
Proof.
  split; [reflexivity|].
  eexists _, _, _. split; [reflexivity|]. split; [reflexivity|].
  split; [reflexivity|discriminate].
Qed.

(** ** The access gate *)

Section Gate.
Context {env : Env}.

Lemma get_current_user_missing (now : Z) (db : store) :
  get_current_user None now db
  = Raise (HTTPException 401 "Missing Authorization header")
  /\ get_current_user (Some "") now db
     = Raise (HTTPException 401 "Missing Authorization header").
Proof. split; reflexivity. Qed.

(** A header that does not read [<scheme> <token>] with scheme "bearer"
    is refused before the token library is called. *)
Lemma get_current_user_bad_scheme (h : string) (now : Z) (db : store) :
  h <> "" ->
  lower (first (split " " h)) <> "bearer" \/ (length (split " " h) < 2)%nat ->
  exists reason,
    get_current_user (Some h) now db
    = Raise (HTTPException 401 ("Invalid token: " ++ reason)).
Proof.
  intros Hne Hbad. unfold get_current_user. simpl.
  apply String.eqb_neq in Hne. rewrite Hne. simpl.
  destruct (split " " h) as [|a [|b [|c rest]]] eqn:Hsplit; simpl in *.
  - eexists. reflexivity.
  - eexists. reflexivity.
  - destruct Hbad as [Hscheme|Hlen]; [|lia].
    apply String.eqb_neq in Hscheme. rewrite Hscheme. simpl.
    eexists. reflexivity.
  - eexists. reflexivity.
Qed.

Lemma Depends_raise {R} (handler : dict -> store -> result R * store)
    authorization now db e :
  get_current_user authorization now db = Raise e ->
  Depends handler authorization now db = (Raise e, db).
Proof. intros Hget. unfold Depends. by rewrite Hget. Qed.

End Gate.

(** C6. Amended: on every protected route, a request with no
    [Authorization] header, or with an empty one, fails with 401 and detail
    exactly ["Missing Authorization header"]; a request with a non-empty
    header whose scheme (compared case-insensitively) is not "bearer", or
    that has no space-separated second part, fails with 401 and a detail
    ["Invalid token: ..."]; the store is unchanged in both cases. *)
Theorem unauthenticated_request_rejected {env : Env}
    (req : request) (authorization : option string) (now : Z) (db : store) :
  (authorization = None \/ authorization = Some "" ->
     serve req authorization now db
     = (Raise (HTTPException 401 "Missing Authorization header"), db))
  /\ (forall h,
        authorization = Some h -> h <> "" ->
        lower (first (split " " h)) <> "bearer"
        \/ (length (split " " h) < 2)%nat ->
        exists detail,
          invalid_token_detail detail
          /\ serve req authorization now db
             = (Raise (HTTPException 401 detail), db)).
Proof.
  split.
  - intros [-> | ->]; apply Depends_raise; apply get_current_user_missing.
  - intros h -> Hne Hbad.
    destruct (get_current_user_bad_scheme h now db Hne Hbad) as (reason & Hget).
    exists ("Invalid token: " ++ reason). split; [by exists reason|].
    by apply Depends_raise.
Qed.

Lemma unauthenticated_request_rejected_example :
  serve (env := Demo.env) GET_projects None 0 Demo.one_user
  = (Raise (HTTPException 401 "Missing Authorization header"), Demo.one_user)
  /\ "Token abc" <> ""
  /\ lower (first (split " " "Token abc")) <> "bearer"
  /\ exists detail,
       invalid_token_detail detail
       /\ serve (env := Demo.env) (POST_projects Demo.audit_q1)
                (Some "Token abc") 0 Demo.one_user
          = (Raise (HTTPException 401 detail), Demo.one_user).
Proof.
  split.
  { exact (proj1 (unauthenticated_request_rejected (env := Demo.env)
                    GET_projects None 0
                    Demo.one_user) (or_introl eq_refl)). }
  split; [discriminate|]. split; [discriminate|].
  apply (proj2 (unauthenticated_request_rejected (env := Demo.env)
                  (POST_projects Demo.audit_q1)
                  (Some "Token abc") 0 Demo.one_user) "Token abc" eq_refl).
  - discriminate.
  - left. discriminate.
Defined.

(** The claim as written fails on an empty header: its scheme is not
    "bearer" and it has no second part, yet the detail is the one of a
    missing header, not an invalid-token one. *)
Lemma empty_header_reported_missing :
  lower (first (split " " "")) <> "bearer"
  /\ (length (split " " "") < 2)%nat
  /\ serve (env := Demo.env) GET_projects (Some "") 0 Demo.one_user
     = (Raise (HTTPException 401 "Missing Authorization header"), Demo.one_user)
  /\ ~ invalid_token_detail "Missing Authorization header".
Proof.
  split; [discriminate|]. split; [simpl; lia|]. split; [reflexivity|].
  intros (reason & Heq). discriminate Heq.
Qed.

(** ** The concrete back end meets the library contracts *)

Section DemoFacts.
Import Demo.

Lemma char_bit_bit_char (b : bool) : char_bit (bit_char b) = Some b.
Proof. by destruct b. Qed.

Lemma bit_char_not_dot (b : bool) : Ascii.eqb (bit_char b) "." = false.
Proof. by destruct b. Qed.

Lemma unbits_bits (s rest : string) :
  unbits (bits s ++ "." ++ rest) = Some (s, rest).
Proof.
  change ("." ++ rest) with (String "." rest).
  induction s as [|[b0 b1 b2 b3 b4 b5 b6 b7] s IH]; [reflexivity|].
  cbn [bits]. rewrite !append_String. cbn [unbits].
  rewrite bit_char_not_dot, !char_bit_bit_char, IH. reflexivity.
Qed.

Lemma digits_pos_digits (p : positive) : digits_pos (pos_digits p) = Some p.
Proof. induction p as [p IH|p IH|]; simpl; by rewrite ?IH. Qed.

Lemma digits_int_digits (z : Z) : digits_int (int_digits z) = Some z.
Proof. destruct z; simpl; by rewrite ?digits_pos_digits. Qed.

Lemma bits_no_space (s : string) : all_chars not_space (bits s) = true.
Proof.
  induction s as [|[b0 b1 b2 b3 b4 b5 b6 b7] s IH]; [reflexivity|].
  cbn [bits all_chars]. rewrite IH.
  by destruct b0, b1, b2, b3, b4, b5, b6, b7.
Qed.

Lemma pos_digits_no_space (p : positive) :
  all_chars not_space (pos_digits p) = true.
Proof. induction p; simpl; by rewrite ?IHp. Qed.

Lemma int_digits_no_space (z : Z) : all_chars not_space (int_digits z) = true.
Proof. destruct z; simpl; by rewrite ?pos_digits_no_space. Qed.

Lemma demo_encode_no_space payload key alg :
  all_chars not_space (demo_encode payload key alg) = true.
Proof.
  unfold demo_encode.
  rewrite !all_chars_append, !bits_no_space, int_digits_no_space.
  reflexivity.
Qed.

Lemma jwt_spec : Jwt.CodecSpec Demo.jwt.
Proof.
  split.
  - intros payload key alg. apply split_none, demo_encode_no_space.
  - intros sub exp key alg now. simpl.
    unfold demo_decode, demo_encode.
    change (Jwt.claims sub exp !! "sub") with (Some (VStr sub)).
    change (Jwt.claims sub exp !! "exp") with (Some (VTime exp)).
    cbv beta iota.
    rewrite !unbits_bits, digits_int_digits, String.eqb_refl.
    reflexivity.
Qed.

Lemma is_h64_to_h64 (c : ascii) : Passlib.is_h64 (to_h64 c) = true.
Proof. unfold to_h64. by destruct (Passlib.is_h64 c) eqn:E. Qed.

End DemoFacts.

(** ** Access tokens *)

Section Tokens.
Context {env : Env} (Hjwt : Jwt.CodecSpec env_jwt).

Lemma create_access_token_sub (subj : string) (ttl : option Z) (issued : Z) :
  create_access_token {["sub" := VStr subj]} ttl issued
  = Jwt.encode (Jwt.claims subj (issued + lifetime ttl)) JWT_SECRET JWT_ALGO.
Proof.
  unfold create_access_token, lifetime, Jwt.claims.
  change (minutes ACCESS_TOKEN_EXPIRE_MINUTES) with 28800%Z.
  destruct ttl as [d|]; [destruct (d =? 0)%Z|]; reflexivity.
Qed.

(** The gate on a bearer header carrying a token this service issued. *)
Lemma get_current_user_issued (subj : string) (exp now : Z) (db : store) :
  subj <> "" ->
  get_current_user
    (Some ("Bearer " ++ Jwt.encode (Jwt.claims subj exp) JWT_SECRET JWT_ALGO))
    now db
  = if (exp <=? now)%Z
    then Raise (HTTPException 401 "Invalid token: Signature has expired")
    else match get_documents "user" (Some {["email" := VStr subj]})
                             (Some 1%nat) db with
         | u :: _ => Ok u
         | [] => Raise (HTTPException 401 "Invalid token: User not found")
         end.
Proof.
  intros Hsubj. unfold get_current_user.
  change (truthy_str (Some ("Bearer " ++ ?t))) with true.
  cbv beta iota. change (negb true) with false. cbv iota.
  change (default "" (Some ?h)) with h.
  rewrite split_bearer, Jwt.encode_one_word.
  change (lower "Bearer") with "bearer". cbn [String.eqb negb].
  change (String.eqb "bearer" "bearer") with true. cbv iota. cbn [negb].
  cbv iota.
  rewrite Jwt.decode_encode.
  destruct (exp <=? now)%Z; [reflexivity|].
  cbn [mbind result_bind].
  change (get (<["exp" := VInt exp]> {["sub" := VStr subj]}) "sub")
    with (VStr subj).
  cbn [truthy]. apply String.eqb_neq in Hsubj. rewrite Hsubj.
  cbn [negb].
  by destruct (get_documents "user" _ _ db).
Qed.

End Tokens.

(** C4. Amended: for every non-empty subject and every ttl, a token made by
    [create_access_token] lives for the ttl given, except that a zero or
    absent ttl stands for the default of 8 hours.  Presented as a bearer
    token before its expiry it passes the gate, which resolves its subject
    to the stored user with that email (401 ["Invalid token: User not
    found"] when there is none); at or after its expiry it fails with 401
    ["Invalid token: Signature has expired"]. *)
Theorem token_round_trip {env : Env} (Hjwt : Jwt.CodecSpec env_jwt)
    (subj : string) (ttl : option Z) (issued now : Z) (db : store)
    (Hsubj : subj <> "") :
  let token := create_access_token {["sub" := VStr subj]} ttl issued in
  (forall d, ttl = Some d -> d <> 0%Z -> lifetime ttl = d)
  /\ (ttl = None \/ ttl = Some 0%Z -> lifetime ttl = (8 * 3600)%Z)
  /\ ((now < issued + lifetime ttl)%Z ->
      get_current_user (Some ("Bearer " ++ token)) now db
      = match get_documents "user" (Some {["email" := VStr subj]})
                            (Some 1%nat) db with
        | u :: _ => Ok u
        | [] => Raise (HTTPException 401 "Invalid token: User not found")
        end
      /\ forall u : dict,
           get_current_user (Some ("Bearer " ++ token)) now db = Ok u ->
           In u (collection db "user") /\ u !! "email" = Some (VStr subj))
  /\ ((issued + lifetime ttl <= now)%Z ->
      get_current_user (Some ("Bearer " ++ token)) now db
      = Raise (HTTPException 401 "Invalid token: Signature has expired")).
Proof.
  intros token. unfold token. rewrite create_access_token_sub.
  rewrite (get_current_user_issued Hjwt subj _ now db Hsubj).
  split; [|split; [|split]].
  - intros d -> Hd. simpl. apply Z.eqb_neq in Hd. by rewrite Hd.
  - by intros [-> | ->].
  - intros Hlt. apply Z.leb_gt in Hlt. rewrite Hlt.
    split; [reflexivity|]. intros u Hu.
    destruct (get_documents "user" _ _ db) as [|u' rest] eqn:Hq;
      [discriminate|].
    injection Hu as <-. by apply get_documents_one_head in Hq.
  - intros Hle. apply Z.leb_le in Hle. by rewrite Hle.
Qed.

Lemma token_round_trip_example :
  "alice@example.com" <> ""
  /\ (exists u : dict,
        get_current_user (env := Demo.env)
          (Some ("Bearer " ++ create_access_token (env := Demo.env)
                   {["sub" := VStr "alice@example.com"]} (Some 60%Z) 100))
          159 Demo.one_user = Ok u
        /\ u !! "email" = Some (VStr "alice@example.com"))
  /\ get_current_user (env := Demo.env)
       (Some ("Bearer " ++ create_access_token (env := Demo.env)
                {["sub" := VStr "alice@example.com"]} (Some 60%Z) 100))
       160 Demo.one_user
     = Raise (HTTPException 401 "Invalid token: Signature has expired").
Proof.
  assert (Hsubj : "alice@example.com" <> "") by discriminate.
  split; [exact Hsubj|]. split.
  - destruct (token_round_trip (env := Demo.env) jwt_spec "alice@example.com"
                (Some 60%Z) 100 159 Demo.one_user Hsubj) as (_ & _ & Hlive & _).
    eexists. split; [apply (proj1 (Hlive ltac:(simpl; lia)))|reflexivity].
  - destruct (token_round_trip (env := Demo.env) jwt_spec "alice@example.com"
                (Some 60%Z) 100 160 Demo.one_user Hsubj) as (_ & _ & _ & Hdead).
    apply Hdead. simpl. lia.
Defined.

(** The claim as written fails for a zero ttl: the token is given the
    default lifetime, so it still verifies after [issue_time + ttl]. *)
Lemma zero_ttl_token_accepted_after_expiry :
  (100 + 0 <= 101)%Z
  /\ exists u : dict,
       get_current_user (env := Demo.env)
         (Some ("Bearer " ++ create_access_token (env := Demo.env)
                  {["sub" := VStr "alice@example.com"]} (Some 0%Z) 100))
         101 Demo.one_user = Ok u
       /\ u !! "email" = Some (VStr "alice@example.com").
Proof.
  split; [lia|]. eexists. split; reflexivity.
Qed.

(** ** Passwords *)

Section Passwords.
Context {env : Env}.

Lemma first_ident_2b (rest : string) :
  Passlib.first_ident Passlib.idents ("$2b$" ++ rest) = Some ("$2b$", rest).
Proof. reflexivity. Qed.

Lemma from_string_hash (salt chk : string) :
  Passlib.valid_salt salt = true ->
  String.length chk = 31%nat ->
  all_chars Passlib.is_h64 chk = true ->
  Passlib.from_string ("$2b$12$" ++ salt ++ chk) = Ok ("$2b$12$" ++ salt, chk).
Proof.
  intros [Hlen Hsalt]%andb_true_iff Hchk Hh64.
  apply Nat.eqb_eq in Hlen.
  unfold Passlib.from_string.
  change ("$2b$12$" ++ salt ++ chk)
    with ("$2b$" ++ String "1" (String "2" (String "$" (salt ++ chk)))).
  rewrite first_ident_2b. cbv beta iota zeta.
  change (String.eqb "$2b$" "$2x$") with false. cbv iota.
  change (Passlib.is_digit "1") with true.
  change (Passlib.is_digit "2") with true.
  change (10 * (nat_of_ascii "1" - 48) + (nat_of_ascii "2" - 48))%nat
    with 12%nat.
  change (4 <=? 12)%nat with true. change (12 <=? 31)%nat with true.
  rewrite length_append, Hlen, Hchk, all_chars_append, Hsalt, Hh64.
  cbn [andb Nat.add Nat.eqb].
  rewrite <- Hlen at 1. rewrite take_str_append.
  rewrite <- Hlen at 1. rewrite drop_str_append.
  reflexivity.
Qed.

Lemma from_string_identify (h : string) (parsed : string * string) :
  Passlib.from_string h = Ok parsed -> Passlib.identify h = true.
Proof.
  unfold Passlib.from_string, Passlib.identify.
  by destruct (Passlib.first_ident Passlib.idents h).
Qed.

Lemma validate_secret_ok (password : string) :
  (String.length password <= 4096)%nat ->
  Passlib.validate_secret password = Ok tt.
Proof.
  intros Hlen. unfold Passlib.validate_secret, Passlib.MAX_PASSWORD_SIZE.
  by apply Nat.ltb_ge in Hlen as ->.
Qed.

(** On a hash that parses, verification compares digests. *)
Lemma verify_password_parsed (password h config chk : string) :
  (String.length password <= 4096)%nat ->
  Passlib.has_nul password = false ->
  Passlib.from_string h = Ok (config, chk) ->
  verify_password password (VStr h)
  = Ok (String.eqb (Passlib.hashpw config password) chk).
Proof.
  intros Hlen Hnul Hparse.
  unfold verify_password, Passlib.verify.
  rewrite (from_string_identify h _ Hparse). cbn [negb].
  rewrite (validate_secret_ok _ Hlen), Hparse.
  unfold Passlib.calc_checksum. rewrite Hnul. reflexivity.
Qed.

(** On a string that does not parse, the library's exception comes out
    of [verify_password] as it is. *)
Lemma verify_password_unparsed (password h : string) (e : exn) :
  Passlib.from_string h = Raise e ->
  exists cls msg, verify_password password (VStr h) = Raise (Error cls msg).
Proof.
  intros Hparse. unfold verify_password, Passlib.verify.
  destruct (Passlib.identify h); cbn [negb]; [|by eexists _, _].
  unfold Passlib.validate_secret.
  destruct (_ <? _)%nat; [by eexists _, _|].
  rewrite Hparse. unfold Passlib.from_string in Hparse.
  assert (e = Passlib.malformed \/ e = Passlib.unsupported_2x) as [-> | ->].
  { destruct (Passlib.first_ident Passlib.idents h)
      as [[i tail]|]; [|left; congruence].
    destruct (String.eqb i "$2x$"); [right; congruence|].
    destruct tail as [|r1 [|r2 [|d data]]]; try (left; congruence).
    repeat match type of Hparse with
           | (if ?b then _ else _) = _ => destruct b
           | match ?x with _ => _ end = _ => destruct x
           end; try discriminate; left; congruence. }
  - by eexists _, _.
  - by eexists _, _.
Qed.

(** A hash of ident [$2x$] is refused, whatever follows the ident. *)
Lemma from_string_2x (rest : string) :
  Passlib.from_string ("$2x$" ++ rest) = Raise Passlib.unsupported_2x.
Proof. reflexivity. Qed.

Lemma verify_password_2x (password rest : string) :
  (String.length password <= 4096)%nat ->
  verify_password password (VStr ("$2x$" ++ rest))
  = Raise Passlib.unsupported_2x.
Proof.
  intros Hlen. unfold verify_password, Passlib.verify.
  change (Passlib.identify ("$2x$" ++ rest)) with true. cbn [negb].
  by rewrite (validate_secret_ok _ Hlen), from_string_2x.
Qed.

End Passwords.

Section DemoDigest.
Import Demo.

Lemma map_to_h64 (s : string) : all_chars Passlib.is_h64 (map_str to_h64 s) = true.
Proof.
  induction s as [|c s IH]; [reflexivity|].
  cbn [map_str all_chars]. by rewrite is_h64_to_h64, IH.
Qed.

Lemma bcrypt_wf : Passlib.BcryptWf Demo.bcrypt.
Proof.
  split; intros config secret; simpl; unfold demo_hashpw.
  - apply length_take_str. rewrite length_append. simpl. lia.
  - apply all_chars_take_str. by rewrite all_chars_append, map_to_h64.
Qed.

End DemoDigest.

(** C7. Amended: [hash_password] has no check for an empty plaintext.  For
    every plaintext of at most 4096 characters with no NUL character in it,
    the empty string included, it succeeds, and [verify_password] accepts
    the hash it produces for the same plaintext. *)
Theorem hash_password_then_verify {env : Env}
    (Hwf : Passlib.BcryptWf env_bcrypt)
    (salt password : string)
    (Hsalt : Passlib.valid_salt salt = true)
    (Hlen : (String.length password <= 4096)%nat)
    (Hnul : Passlib.has_nul password = false) :
  (exists hashed,
      hash_password salt password = Ok hashed
      /\ verify_password password (VStr hashed) = Ok true)
  /\ (exists hashed,
      hash_password salt "" = Ok hashed
      /\ verify_password "" (VStr hashed) = Ok true).
Proof.
  assert (Hgen : forall pw,
             (String.length pw <= 4096)%nat -> Passlib.has_nul pw = false ->
             exists hashed,
               hash_password salt pw = Ok hashed
               /\ verify_password pw (VStr hashed) = Ok true).
  { intros pw Hl Hn.
    exists ("$2b$12$" ++ salt ++ Passlib.hashpw ("$2b$12$" ++ salt) pw).
    split.
    - unfold hash_password, Passlib.hash, Passlib.calc_checksum.
      rewrite (validate_secret_ok _ Hl), Hn. reflexivity.
    - rewrite (verify_password_parsed pw _ ("$2b$12$" ++ salt)
                 (Passlib.hashpw ("$2b$12$" ++ salt) pw) Hl Hn).
      + by rewrite String.eqb_refl.
      + apply from_string_hash;
          [exact Hsalt|apply Passlib.hashpw_length|apply Passlib.hashpw_h64]. }
  split; [by apply Hgen|].
  apply Hgen; [simpl; lia|reflexivity].
Qed.

Lemma hash_password_then_verify_example :
  Passlib.valid_salt Demo.salt = true
  /\ (String.length "wonderland" <= 4096)%nat
  /\ Passlib.has_nul "wonderland" = false
  /\ exists hashed,
       hash_password (env := Demo.env) Demo.salt "wonderland" = Ok hashed
       /\ verify_password (env := Demo.env) "wonderland" (VStr hashed) = Ok true.
Proof.
  split; [reflexivity|]. split; [simpl; lia|]. split; [reflexivity|].
  exact (proj1 (hash_password_then_verify (env := Demo.env) bcrypt_wf
                  Demo.salt "wonderland" eq_refl
                  ltac:(simpl; lia) eq_refl)).
Defined.

(** The claim as written fails on the empty string: it is hashed like any
    other plaintext.  (A non-empty plaintext is refused when it holds a NUL
    character.) *)
Lemma hash_password_accepts_empty :
  hash_password (env := Demo.env) Demo.salt ""
  = Ok "$2b$12$abcdefghijklmnopqrstuv..............................."
  /\ hash_password (env := Demo.env) Demo.salt (String zero "secret")
     = Raise (Error "NullPasswordError"
                    "bcrypt does not allow NULL bytes in password").
Proof. split; reflexivity. Qed.

(** C8. Amended: for a plaintext of at most 4096 characters with no NUL in
    it, [verify_password] returns a boolean without raising whenever the
    hash is a well-formed bcrypt hash string of an ident the library
    supports ([$2$], [$2a$], [$2y$] or [$2b$]), true exactly when the digest
    of the plaintext is the one in the hash; on a string that is not one,
    a [$2x$] hash included, the hashing library's exception leaves
    [verify_password] unhandled.  Login with an email no stored user has, or
    with a password that does not match the well-formed hash of the stored
    user, yields 401 ["Invalid credentials"] and leaves the store as it
    was. *)
Theorem verify_password_total_on_bcrypt_hashes {env : Env}
    (password h : string)
    (Hlen : (String.length password <= 4096)%nat)
    (Hnul : Passlib.has_nul password = false) :
  (forall config chk,
      Passlib.from_string h = Ok (config, chk) ->
      verify_password password (VStr h)
      = Ok (String.eqb (Passlib.hashpw config password) chk))
  /\ (forall e,
      Passlib.from_string h = Raise e ->
      exists cls msg, verify_password password (VStr h) = Raise (Error cls msg))
  /\ (forall payload now db,
      AuthPayload.password payload = password ->
      (get_documents "user"
         (Some {["email" := VStr (AuthPayload.email payload)]}) (Some 1%nat) db
       = [] ->
       login payload now db
       = (Raise (HTTPException 401 "Invalid credentials"), db))
      /\ (forall (user : dict) rest config chk,
           get_documents "user"
             (Some {["email" := VStr (AuthPayload.email payload)]})
             (Some 1%nat) db = user :: rest ->
           user !! "hashed_password" = Some (VStr h) ->
           Passlib.from_string h = Ok (config, chk) ->
           Passlib.hashpw config password <> chk ->
           login payload now db
           = (Raise (HTTPException 401 "Invalid credentials"), db)))
  /\ (forall rest,
      h = "$2x$" ++ rest ->
      verify_password password (VStr h) = Raise Passlib.unsupported_2x).
Proof.
  split; [|split; [|split]]; [| | |by intros rest ->; apply verify_password_2x].
  - intros config chk Hparse. by apply verify_password_parsed.
  - intros e Hparse. by eapply verify_password_unparsed.
  - intros payload now db Hpw. split.
    + intros Hnone. unfold login. by rewrite Hnone.
    + intros user rest config chk Hsome Hhash Hparse Hdiff.
      unfold login. rewrite Hsome. unfold get_default. rewrite Hhash.
      cbn [default]. rewrite Hpw.
      rewrite (verify_password_parsed password h config chk Hlen Hnul Hparse).
      apply String.eqb_neq in Hdiff. by rewrite Hdiff.
Qed.

Lemma verify_password_total_on_bcrypt_hashes_example :
  (String.length "builder" <= 4096)%nat
  /\ Passlib.has_nul "builder" = false
  /\ verify_password (env := Demo.env) "builder"
       (VStr "$2b$12$abcdefghijklmnopqrstuvwonderland.....................")
     = Ok false
  /\ login (env := Demo.env) Demo.alice_wrong 300 Demo.one_user
     = (Raise (HTTPException 401 "Invalid credentials"), Demo.one_user).
Proof.
  assert (Hlen : (String.length "builder" <= 4096)%nat) by (simpl; lia).
  destruct (verify_password_total_on_bcrypt_hashes (env := Demo.env) "builder"
              "$2b$12$abcdefghijklmnopqrstuvwonderland....................."
              Hlen eq_refl) as (Hverify & _ & Hlogin & _).
  split; [exact Hlen|]. split; [reflexivity|]. split.
  - exact (Hverify _ _ eq_refl).
  - refine (proj2 (Hlogin Demo.alice_wrong 300%Z Demo.one_user eq_refl)
              _ _ _ _ eq_refl eq_refl eq_refl _).
    discriminate.
Defined.

(** The claim as written fails on a string that is not a bcrypt hash:
    [verify_password] raises; and login against a stored user with no
    [hashed_password] ends in that exception, not in a 401. *)
Lemma verify_password_raises_on_malformed_hash :
  verify_password (env := Demo.env) "looking-glass" (VStr "not-a-hash")
  = Raise (Error "UnknownHashError" "hash could not be identified")
  /\ verify_password (env := Demo.env) "looking-glass" (VStr "")
     = Raise (Error "UnknownHashError" "hash could not be identified")
  /\ login (env := Demo.env) Demo.carol 300 Demo.legacy_store
     = (Raise (Error "UnknownHashError" "hash could not be identified"),
        Demo.legacy_store).
Proof. repeat split; reflexivity. Qed.


(** * Further properties of the handlers *)

Import Routes.

(** ** The access gate, case by case *)

Section GateCases.
Context {env : Env}.

Lemma split_at_sep (sep : ascii) (a b : string) :
  all_chars (fun c => negb (Ascii.eqb c sep)) a = true ->
  split sep (a ++ String sep b) = a :: split sep b.
Proof.
  induction a as [|c a IH]; intros Ha.
  - simpl. by rewrite Ascii.eqb_refl.
  - simpl in Ha. apply andb_true_iff in Ha as [Hc Ha].
    apply negb_true_iff in Hc.
    rewrite append_String. cbn [split]. by rewrite Hc, (IH Ha).
Qed.

Lemma split_nonempty (sep : ascii) (s : string) : split sep s <> [].
Proof.
  destruct s as [|c s]; simpl; [done|].
  destruct (Ascii.eqb c sep); [done|].
  by destruct (split sep s).
Qed.

(** A split has one piece more than there are separators. *)
Lemma length_split (sep : ascii) (s : string) :
  length (split sep s) = S (count_char sep s).
Proof.
  induction s as [|c s IH]; simpl; [done|].
  destruct (Ascii.eqb c sep); simpl; [by rewrite IH|].
  destruct (split sep s) as [|h t] eqn:Hs; [by destruct (split_nonempty sep s)|].
  exact IH.
Qed.

Lemma split_one (sep : ascii) (s piece : string) :
  split sep s = [piece] -> s = piece.
Proof.
  revert piece. induction s as [|c s IH]; intros piece Hs; simpl in Hs.
  - congruence.
  - destruct (Ascii.eqb c sep).
    { injection Hs as _ Hs. by destruct (split_nonempty sep s). }
    destruct (split sep s) as [|p [|q r]] eqn:Hp; try discriminate.
    + by destruct (split_nonempty sep s).
    + injection Hs as Hs. rewrite <- Hs. f_equal. by apply IH.
Qed.

(** Two pieces are the two sides of the only separator. *)
Lemma split_two (sep : ascii) (s a b : string) :
  split sep s = [a; b] -> s = a ++ String sep b.
Proof.
  revert a. induction s as [|c s IH]; intros a Hs; simpl in Hs; [discriminate|].
  destruct (Ascii.eqb_spec c sep) as [->|Hc].
  - injection Hs as Ha Hb. rewrite <- Ha.
    change ("" ++ String sep b) with (String sep b). f_equal.
    by apply (split_one sep).
  - destruct (split sep s) as [|p [|q r]]; try discriminate.
    injection Hs as Ha Hb Hr. subst a q r. rewrite append_String. f_equal.
    by apply IH.
Qed.

Lemma get_current_user_nonempty (h : string) (now : Z) (db : store) :
  h <> "" ->
  get_current_user (Some h) now db
  = try_except
      (match split " " h with
       | [scheme; token] =>
           if negb (String.eqb (lower scheme) "bearer")
           then Raise (Error "Exception" "Invalid auth scheme")
           else
             payload ← Jwt.decode token JWT_SECRET [JWT_ALGO] now;
             let user_id := get payload "sub" in
             if negb (truthy user_id)
             then Raise (Error "Exception" "Invalid token")
             else
               match get_documents "user" (Some {["email" := user_id]})
                                   (Some 1%nat) db with
               | [] => Raise (Error "Exception" "User not found")
               | u :: _ => Ok u
               end
       | [] | [_] =>
           Raise (Error "ValueError"
                        "not enough values to unpack (expected 2, got 1)")
       | _ =>
           Raise (Error "ValueError" "too many values to unpack (expected 2)")
       end)
      (fun e => Raise (HTTPException 401 ("Invalid token: " ++ str_exn e))).
Proof.
  intros Hne. unfold get_current_user. simpl.
  apply String.eqb_neq in Hne. by rewrite Hne.
Qed.

End GateCases.

(** X1. Whatever the header, the clock and the store, the gate either
    fails with status 401, or returns a stored user: then the header reads
    [<scheme> <token>] with the scheme "bearer" in some letter case, the
    token decodes under the signing secret, its subject is truthy, and the
    user returned is a document of the user collection whose email is that
    subject. *)
Theorem gate_resolves_or_401 {env : Env}
    (authorization : option string) (now : Z) (db : store) :
  (exists detail,
      get_current_user authorization now db = Raise (HTTPException 401 detail))
  \/ (exists (u : dict) scheme token payload,
        get_current_user authorization now db = Ok u
        /\ authorization = Some (scheme ++ " " ++ token)
        /\ lower scheme = "bearer"
        /\ Jwt.decode token JWT_SECRET [JWT_ALGO] now = Ok payload
        /\ truthy (get payload "sub") = true
        /\ In u (collection db "user")
        /\ u !! "email" = Some (get payload "sub")).
Proof.
  destruct authorization as [h|]; [|left; by eexists].
  destruct (String.eqb_spec h "") as [->|Hne]; [left; by eexists|].
  rewrite (get_current_user_nonempty h now db Hne).
  destruct (split " " h) as [|scheme [|token [|x rest]]] eqn:Hsplit;
    try (left; by eexists).
  destruct (String.eqb_spec (lower scheme) "bearer") as [Hlow|Hlow];
    [|left; by eexists].
  cbn [negb].
  destruct (Jwt.decode token JWT_SECRET [JWT_ALGO] now) as [payload|e] eqn:Hdec;
    [|left; by eexists].
  cbn [mbind result_bind].
  destruct (truthy (get payload "sub")) eqn:Htruthy; [|left; by eexists].
  cbn [negb].
  destruct (get_documents "user" _ _ db) as [|u us] eqn:Hq; [left; by eexists|].
  right. exists u, scheme, token, payload.
  apply get_documents_one_head in Hq as [Hin Hemail].
  repeat split; try assumption; try reflexivity.
  f_equal. by apply split_two.
Qed.

Lemma lower_ascii_space (c : ascii) :
  Ascii.eqb (lower_ascii c) " " = Ascii.eqb c " ".
Proof. by destruct c as [[] [] [] [] [] [] [] []]. Qed.

(** Lowering letters neither makes nor removes a space. *)
Lemma lower_no_space (s : string) :
  all_chars (fun c => negb (Ascii.eqb c " ")) (lower s)
  = all_chars (fun c => negb (Ascii.eqb c " ")) s.
Proof.
  induction s as [|c s IH]; [reflexivity|].
  cbn [lower all_chars]. by rewrite lower_ascii_space, IH.
Qed.

(** X2. For a header [<scheme> <token>] whose scheme is "bearer" in any
    letter case, the answer of the gate is decided by the token alone: a
    token the library refuses gives 401 with the library's message after
    ["Invalid token: "]; a token with no truthy subject gives 401 ["Invalid
    token: Invalid token"]; otherwise the first stored user with the subject
    as email is returned, and 401 ["Invalid token: User not found"] when
    there is none. *)
Theorem gate_on_bearer_header {env : Env}
    (scheme token : string) (now : Z) (db : store)
    (Hscheme : lower scheme = "bearer")
    (Htoken : all_chars (fun c => negb (Ascii.eqb c " ")) token = true) :
  get_current_user (Some (scheme ++ " " ++ token)) now db
  = match Jwt.decode token JWT_SECRET [JWT_ALGO] now with
    | Raise e => Raise (HTTPException 401 ("Invalid token: " ++ str_exn e))
    | Ok payload =>
        if truthy (get payload "sub")
        then match get_documents "user"
                     (Some {["email" := get payload "sub"]}) (Some 1%nat) db with
             | u :: _ => Ok u
             | [] => Raise (HTTPException 401 "Invalid token: User not found")
             end
        else Raise (HTTPException 401 "Invalid token: Invalid token")
    end.
Proof.
  assert (Hnosp : all_chars (fun c => negb (Ascii.eqb c " ")) scheme = true)
    by (by rewrite <- lower_no_space, Hscheme).
  assert (Hne : scheme ++ " " ++ token <> "")
    by (destruct scheme; [discriminate Hscheme|discriminate]).
  rewrite (get_current_user_nonempty _ now db Hne).
  change (scheme ++ " " ++ token) with (scheme ++ String " " token).
  rewrite (split_at_sep " " scheme token Hnosp), (split_none " " token Htoken).
  rewrite Hscheme. cbn [String.eqb negb].
  change (String.eqb "bearer" "bearer") with true. cbn [negb].
  destruct (Jwt.decode token JWT_SECRET [JWT_ALGO] now) as [payload|e];
    [|reflexivity].
  cbn [mbind result_bind].
  destruct (truthy (get payload "sub")); [|reflexivity].
  cbn [negb]. by destruct (get_documents "user" _ _ db).
Qed.

Lemma gate_on_bearer_header_example :
  lower "BEARER" = "bearer"
  /\ all_chars (fun c => negb (Ascii.eqb c " ")) "abc" = true
  /\ get_current_user (env := Demo.env) (Some "BEARER abc") 0 Demo.one_user
     = Raise (HTTPException 401 "Invalid token: Not enough segments").
Proof.
  split; [reflexivity|]. split; [reflexivity|].
  exact (gate_on_bearer_header (env := Demo.env) "BEARER" "abc" 0 Demo.one_user
           eq_refl eq_refl).
Defined.

(** X3. A non-empty header with no space in it fails with 401 ["Invalid
    token: not enough values to unpack (expected 2, got 1)"], and a header
    with two or more spaces fails with 401 ["Invalid token: too many values
    to unpack (expected 2)"], whatever its scheme and however valid the
    token in it: the token library is not consulted. *)
Theorem gate_counts_header_parts {env : Env}
    (h : string) (now : Z) (db : store) (Hne : h <> "") :
  (count_char " " h = 0%nat ->
   get_current_user (Some h) now db
   = Raise (HTTPException 401
       "Invalid token: not enough values to unpack (expected 2, got 1)"))
  /\ ((2 <= count_char " " h)%nat ->
      get_current_user (Some h) now db
      = Raise (HTTPException 401
          "Invalid token: too many values to unpack (expected 2)")).
Proof.
  rewrite (get_current_user_nonempty h now db Hne).
  pose proof (length_split " " h) as Hlen.
  split; intros Hcount; rewrite Hcount in Hlen || idtac;
    destruct (split " " h) as [|a [|b [|c rest]]]; simpl in Hlen;
    try reflexivity; lia.
Qed.

Lemma gate_counts_header_parts_example :
  "Bearer abc def" <> ""
  /\ (2 <= count_char " " "Bearer abc def")%nat
  /\ get_current_user (env := Demo.env) (Some "Bearer abc def") 0 Demo.one_user
     = Raise (HTTPException 401
         "Invalid token: too many values to unpack (expected 2)").
Proof.
  assert (Hne : "Bearer abc def" <> "") by discriminate.
  split; [exact Hne|]. split; [simpl; lia|].
  apply (proj2 (gate_counts_header_parts (env := Demo.env) "Bearer abc def"
                  0 Demo.one_user Hne)).
  simpl. lia.
Defined.

(** ** From registration to the gate and to login *)

Section AfterRegistration.
Context {env : Env}.

(** A query limited to one answer, on a collection whose last document
    is the only one carrying the value, returns that document. *)
Lemma get_documents_one_last name k v db (old : list dict) (new : dict) :
  collection db name = (old ++ [new])%list ->
  (forall doc : dict, In doc old -> doc !! k <> Some v) ->
  new !! k = Some v ->
  get_documents name (Some {[k := v]}) (Some 1%nat) db = [new].
Proof.
  intros Hcoll Hold Hnew. unfold get_documents. simpl. rewrite Hcoll.
  clear Hcoll. induction old as [|d old IH]; simpl.
  - by apply matches_singleton in Hnew as ->.
  - destruct (matches {[k := v]} d) eqn:Hd.
    + apply matches_singleton in Hd. destruct (Hold d); [by left|done].
    + apply IH. intros doc Hin. apply Hold. by right.
Qed.

(** A registration that fails leaves the store as it was. *)
Lemma register_raise_unchanged payload salt now db e :
  fst (register payload salt now db) = Raise e ->
  snd (register payload salt now db) = db.
Proof.
  unfold register.
  destruct (get_documents "user" _ (Some 1%nat) db); [|done].
  by destruct (hash_password salt (AuthPayload.password payload)).
Qed.

(** When the hasher succeeds the plaintext is within its limits and the
    hash is the configuration followed by the digest. *)
Lemma hash_password_ok salt password hashed :
  hash_password salt password = Ok hashed ->
  (String.length password <= 4096)%nat
  /\ Passlib.has_nul password = false
  /\ hashed = "$2b$12$" ++ salt ++ Passlib.hashpw ("$2b$12$" ++ salt) password.
Proof.
  unfold hash_password, Passlib.hash, Passlib.validate_secret,
    Passlib.calc_checksum, Passlib.MAX_PASSWORD_SIZE.
  destruct (4096 <? String.length password)%nat eqn:Hlen; [discriminate|].
  cbn [mbind result_bind].
  destruct (Passlib.has_nul password); [discriminate|].
  cbn [mbind result_bind]. intros [= <-].
  apply Nat.ltb_ge in Hlen. done.
Qed.

Lemma hash_then_verify (Hwf : Passlib.BcryptWf env_bcrypt) salt password hashed :
  Passlib.valid_salt salt = true ->
  hash_password salt password = Ok hashed ->
  verify_password password (VStr hashed) = Ok true.
Proof.
  intros Hsalt (Hlen & Hnul & ->)%hash_password_ok.
  rewrite (verify_password_parsed password _ ("$2b$12$" ++ salt)
             (Passlib.hashpw ("$2b$12$" ++ salt) password) Hlen Hnul).
  - by rewrite String.eqb_refl.
  - apply from_string_hash;
      [exact Hsalt|apply Passlib.hashpw_length|apply Passlib.hashpw_h64].
Qed.

(** After a successful registration, a query for the email finds the new
    user and nobody else. *)
Lemma register_then_query payload salt now db tok db' :
  register payload salt now db = (Ok tok, db') ->
  exists hashed,
    hash_password salt (AuthPayload.password payload) = Ok hashed
    /\ get_documents "user"
         (Some {["email" := VStr (AuthPayload.email payload)]}) (Some 1%nat) db'
       = [<["_id" := VOid (next_oid db)]>
            (User.model_dump (new_user payload hashed db))]
    /\ TokenResponse.access_token tok
       = create_access_token {["sub" := VStr (AuthPayload.email payload)]}
                             None now.
Proof.
  intros (hashed & Hhash & Hfresh & Hcoll & Htok)%register_ok.
  exists hashed. split; [exact Hhash|]. split; [|exact Htok].
  by apply (get_documents_one_last _ _ _ _ _ _ Hcoll Hfresh).
Qed.

(** The gate on a token this service issued, whatever its subject. *)
Lemma get_current_user_issued_any (Hjwt : Jwt.CodecSpec env_jwt)
    (subj : string) (exp now : Z) (db : store) :
  get_current_user
    (Some ("Bearer " ++ Jwt.encode (Jwt.claims subj exp) JWT_SECRET JWT_ALGO))
    now db
  = if (exp <=? now)%Z
    then Raise (HTTPException 401 "Invalid token: Signature has expired")
    else if String.eqb subj ""
    then Raise (HTTPException 401 "Invalid token: Invalid token")
    else match get_documents "user" (Some {["email" := VStr subj]})
                             (Some 1%nat) db with
         | u :: _ => Ok u
         | [] => Raise (HTTPException 401 "Invalid token: User not found")
         end.
Proof.
  unfold get_current_user.
  change (truthy_str (Some ("Bearer " ++ ?t))) with true.
  cbv beta iota. change (negb true) with false. cbv iota.
  change (default "" (Some ?h)) with h.
  rewrite split_bearer, Jwt.encode_one_word.
  change (lower "Bearer") with "bearer". cbn [String.eqb negb].
  change (String.eqb "bearer" "bearer") with true. cbv iota. cbn [negb].
  cbv iota.
  rewrite Jwt.decode_encode.
  destruct (exp <=? now)%Z; [reflexivity|].
  cbn [mbind result_bind].
  change (get (<["exp" := VInt exp]> {["sub" := VStr subj]}) "sub")
    with (VStr subj).
  cbn [truthy]. destruct (String.eqb subj ""); [reflexivity|].
  cbn [negb]. by destruct (get_documents "user" _ _ db).
Qed.

End AfterRegistration.

(** X4. The token a successful registration returns, for a non-empty
    email, authenticates the new user on the store the registration leaves:
    presented as a bearer token less than 8 hours after the call, the gate
    returns the user record just stored (with the id the store gave it);
    from 8 hours on it fails with 401 ["Invalid token: Signature has
    expired"]. *)
Theorem registered_token_authenticates {env : Env}
    (Hjwt : Jwt.CodecSpec env_jwt)
    (payload : AuthPayload.t) (salt : string) (now later : Z)
    (db db' : store) (tok : TokenResponse.t)
    (Hreg : register payload salt now db = (Ok tok, db'))
    (Hemail : AuthPayload.email payload <> "") :
  exists u : dict,
    In u (collection db' "user")
    /\ u !! "_id" = Some (VOid (next_oid db))
    /\ u !! "email" = Some (VStr (AuthPayload.email payload))
    /\ ((later < now + 8 * 3600)%Z ->
        get_current_user
          (Some ("Bearer " ++ TokenResponse.access_token tok)) later db'
        = Ok u)
    /\ ((now + 8 * 3600 <= later)%Z ->
        get_current_user
          (Some ("Bearer " ++ TokenResponse.access_token tok)) later db'
        = Raise (HTTPException 401 "Invalid token: Signature has expired")).
Proof.
  pose proof (register_ok _ _ _ _ _ _ Hreg) as (hashed0 & _ & _ & Hcoll & _).
  apply register_then_query in Hreg as (hashed & Hhash & Hq & ->).
  exists (<["_id" := VOid (next_oid db)]>
            (User.model_dump (new_user payload hashed db))).
  split; [|split; [reflexivity|split; [reflexivity|]]].
  { apply (get_documents_one_head "user" "email"
             (VStr (AuthPayload.email payload)) db' _ []). exact Hq. }
  rewrite create_access_token_sub.
  rewrite (get_current_user_issued Hjwt _ _ later db' Hemail), Hq.
  change (now + lifetime None)%Z with (now + 8 * 3600)%Z.
  split.
  - intros Hlt. apply Z.leb_gt in Hlt. by rewrite Hlt.
  - intros Hle. apply Z.leb_le in Hle. by rewrite Hle.
Qed.

Lemma registered_token_authenticates_example :
  AuthPayload.email Demo.alice <> ""
  /\ exists u : dict,
       u !! "email" = Some (VStr "alice@example.com")
       /\ get_current_user (env := Demo.env)
            (Some ("Bearer " ++ TokenResponse.access_token
                     {| TokenResponse.access_token :=
                          create_access_token (env := Demo.env)
                            {["sub" := VStr "alice@example.com"]} None 100;
                        TokenResponse.token_type := "bearer" |}))
            28899 Demo.one_user
          = Ok u.
Proof.
  assert (Hne : AuthPayload.email Demo.alice <> "") by discriminate.
  split; [exact Hne|].
  destruct (registered_token_authenticates (env := Demo.env) jwt_spec
              Demo.alice Demo.salt 100 28899 Database.empty Demo.one_user
              _ eq_refl Hne) as (u & _ & _ & Hemail & Hlive & _).
  exists u. split; [exact Hemail|]. apply Hlive. lia.
Defined.

(** X5. Registration does not check the email: with an empty email it
    succeeds, but the token it returns is never accepted, on any store and
    at any time: the gate fails with 401, either ["Invalid token: Signature
    has expired"] or ["Invalid token: Invalid token"]. *)
Theorem empty_email_token_rejected {env : Env}
    (Hjwt : Jwt.CodecSpec env_jwt)
    (payload : AuthPayload.t) (salt : string) (now later : Z)
    (db db' any : store) (tok : TokenResponse.t)
    (Hreg : register payload salt now db = (Ok tok, db'))
    (Hemail : AuthPayload.email payload = "") :
  get_current_user (Some ("Bearer " ++ TokenResponse.access_token tok)) later any
  = Raise (HTTPException 401
             (if (now + 8 * 3600 <=? later)%Z
              then "Invalid token: Signature has expired"
              else "Invalid token: Invalid token")).
Proof.
  apply register_ok in Hreg as (hashed & _ & _ & _ & ->).
  rewrite Hemail, create_access_token_sub.
  rewrite (get_current_user_issued_any Hjwt "" _ later any).
  change (now + lifetime None)%Z with (now + 8 * 3600)%Z.
  by destruct (now + 8 * 3600 <=? later)%Z.
Qed.

Lemma empty_email_token_rejected_example :
  exists (tok : TokenResponse.t) (db' : store),
    register (env := Demo.env)
      {| AuthPayload.email := ""; AuthPayload.password := "wonderland";
         AuthPayload.name := None |} Demo.salt 100 Database.empty
    = (Ok tok, db')
    /\ get_current_user (env := Demo.env)
         (Some ("Bearer " ++ TokenResponse.access_token tok)) 200 db'
       = Raise (HTTPException 401 "Invalid token: Invalid token").
Proof.
  eexists _, _. split; [reflexivity|].
  exact (empty_email_token_rejected (env := Demo.env) jwt_spec
           {| AuthPayload.email := ""; AuthPayload.password := "wonderland";
              AuthPayload.name := None |} Demo.salt 100 200 Database.empty
           _ _ _ eq_refl eq_refl).
Defined.

(** X6. After a successful registration, logging in with the same email
    and password succeeds on the store the registration leaves: it returns a
    bearer token for that email issued at the time of the login, and does
    not change the store. *)
Theorem login_after_register {env : Env}
    (Hwf : Passlib.BcryptWf env_bcrypt)
    (payload attempt : AuthPayload.t) (salt : string) (now later : Z)
    (db db' : store) (tok : TokenResponse.t)
    (Hsalt : Passlib.valid_salt salt = true)
    (Hreg : register payload salt now db = (Ok tok, db'))
    (Hemail : AuthPayload.email attempt = AuthPayload.email payload)
    (Hpassword : AuthPayload.password attempt = AuthPayload.password payload) :
  login attempt later db'
  = (Ok {| TokenResponse.access_token :=
             create_access_token
               {["sub" := VStr (AuthPayload.email payload)]} None later;
           TokenResponse.token_type := "bearer" |}, db').
Proof.
  apply register_then_query in Hreg as (hashed & Hhash & Hq & _).
  unfold login. rewrite Hemail, Hpassword, Hq.
  change (get_default
            (<["_id" := VOid (next_oid db)]>
               (User.model_dump (new_user payload hashed db)))
            "hashed_password" (VStr ""))
    with (VStr hashed).
  by rewrite (hash_then_verify Hwf salt _ hashed Hsalt Hhash).
Qed.

Lemma login_after_register_example :
  Passlib.valid_salt Demo.salt = true
  /\ exists tok : TokenResponse.t,
       login (env := Demo.env) Demo.alice 500 Demo.one_user
       = (Ok tok, Demo.one_user)
       /\ TokenResponse.token_type tok = "bearer".
Proof.
  split; [reflexivity|]. eexists. split.
  - exact (login_after_register (env := Demo.env) bcrypt_wf Demo.alice
             Demo.alice Demo.salt 100 500 Database.empty Demo.one_user
             _ eq_refl eq_refl eq_refl eq_refl).
  - reflexivity.
Defined.

(** ** Emails stay distinct *)

Section EmailsDistinct.
Context {env : Env}.

Lemma register_keeps_distinct payload salt now db :
  NoDup (emails (collection db "user")) ->
  NoDup (emails (collection (snd (register payload salt now db)) "user")).
Proof.
  intros Hnodup.
  destruct (register payload salt now db) as [[tok|e] db'] eqn:Hreg.
  - apply register_ok in Hreg as (hashed & _ & Hfresh & Hcoll & _).
    simpl. rewrite Hcoll. unfold emails. rewrite map_app.
    apply NoDup_app. split; [exact Hnodup|]. split.
    + intros x Hx [<-|[]]%list_elem_of_In.
      apply list_elem_of_In, in_map_iff in Hx as (doc & Hdoc & Hin).
      by apply (Hfresh doc Hin).
    + simpl. apply NoDup_singleton.
  - replace db' with (snd (register payload salt now db)) by (by rewrite Hreg).
    rewrite (register_raise_unchanged payload salt now db e); [done|].
    by rewrite Hreg.
Qed.

End EmailsDistinct.

(** X7. Registration keeps emails distinct: if no two stored users have
    the same [email] field, that is still so after any sequence of
    registration calls made one after the other, whether each succeeds or
    fails. *)
Theorem register_each_keeps_emails_distinct {env : Env}
    (reqs : list registration) (db : store)
    (Hdistinct : NoDup (emails (collection db "user"))) :
  NoDup (emails (collection (register_each reqs db) "user")).
Proof.
  revert db Hdistinct.
  induction reqs as [|[[payload salt] now] rest IH]; intros db Hdistinct;
    [exact Hdistinct|].
  simpl. apply IH. by apply register_keeps_distinct.
Qed.

Lemma register_each_keeps_emails_distinct_example :
  NoDup (emails (collection Database.empty "user"))
  /\ emails (collection
              (register_each (env := Demo.env)
                 [(Demo.alice, Demo.salt, 100%Z); (Demo.alice_blank, Demo.salt, 150%Z);
                  (Demo.bob, Demo.salt, 200%Z)] Database.empty) "user")
     = [Some (VStr "alice@example.com"); Some (VStr "bob@example.com")]
  /\ NoDup (emails (collection
                     (register_each (env := Demo.env)
                        [(Demo.alice, Demo.salt, 100%Z);
                         (Demo.alice_blank, Demo.salt, 150%Z);
                         (Demo.bob, Demo.salt, 200%Z)] Database.empty) "user")).
Proof.
  assert (Hempty : NoDup (emails (collection Database.empty "user")))
    by apply NoDup_nil_2.
  split; [exact Hempty|]. split; [reflexivity|].
  exact (register_each_keeps_emails_distinct (env := Demo.env) _
           Database.empty Hempty).
Defined.

(** X8. A login that succeeds leaves the store unchanged, and for a
    non-empty email the token it returns is accepted by the gate on that
    store for the next 8 hours, resolving to a stored user with the login
    email; from 8 hours on the token is refused as expired. *)
Theorem login_token_authenticates {env : Env}
    (Hjwt : Jwt.CodecSpec env_jwt)
    (attempt : AuthPayload.t) (now later : Z) (db db' : store)
    (tok : TokenResponse.t)
    (Hlogin : login attempt now db = (Ok tok, db'))
    (Hemail : AuthPayload.email attempt <> "") :
  db' = db
  /\ ((later < now + 8 * 3600)%Z ->
      exists u : dict,
        get_current_user
          (Some ("Bearer " ++ TokenResponse.access_token tok)) later db = Ok u
        /\ In u (collection db "user")
        /\ u !! "email" = Some (VStr (AuthPayload.email attempt)))
  /\ ((now + 8 * 3600 <= later)%Z ->
      get_current_user
        (Some ("Bearer " ++ TokenResponse.access_token tok)) later db
      = Raise (HTTPException 401 "Invalid token: Signature has expired")).
Proof.
  unfold login in Hlogin.
  destruct (get_documents "user" _ (Some 1%nat) db) as [|user rest] eqn:Hq;
    [discriminate|].
  destruct (verify_password _ _) as [[|]|e]; try discriminate.
  injection Hlogin as <- <-. split; [reflexivity|].
  cbn [TokenResponse.access_token].
  rewrite create_access_token_sub.
  rewrite (get_current_user_issued Hjwt _ _ later db Hemail), Hq.
  change (now + lifetime None)%Z with (now + 8 * 3600)%Z.
  split.
  - intros Hlt. apply Z.leb_gt in Hlt. rewrite Hlt.
    exists user. split; [reflexivity|].
    by apply get_documents_one_head in Hq.
  - intros Hle. apply Z.leb_le in Hle. by rewrite Hle.
Qed.

Lemma login_token_authenticates_example :
  AuthPayload.email Demo.alice <> ""
  /\ exists (tok : TokenResponse.t) (u : dict),
       login (env := Demo.env) Demo.alice 500 Demo.one_user
       = (Ok tok, Demo.one_user)
       /\ get_current_user (env := Demo.env)
            (Some ("Bearer " ++ TokenResponse.access_token tok)) 600
            Demo.one_user = Ok u
       /\ u !! "email" = Some (VStr "alice@example.com").
Proof.
  assert (Hne : AuthPayload.email Demo.alice <> "") by discriminate.
  split; [exact Hne|].
  destruct (login_token_authenticates (env := Demo.env) jwt_spec Demo.alice
              500 600 Demo.one_user Demo.one_user _ eq_refl Hne)
    as (_ & Hlive & _).
  destruct (Hlive ltac:(lia)) as (u & Hget & _ & Hmail).
  eexists _, u. split; [reflexivity|]. split; [exact Hget|exact Hmail].
Defined.

(** ** Child records: filing and listing *)

Section Filing.

Lemma get_documents_create_other name name' data flt limit db :
  name <> name' ->
  get_documents name' flt limit (snd (create_document name data db))
  = get_documents name' flt limit db.
Proof.
  intros Hne. unfold get_documents.
  by rewrite (collection_create_other name name' data db Hne).
Qed.

Lemma get_documents_create_hit name data flt db :
  matches flt (<["_id" := VOid (next_oid db)]> data) = true ->
  get_documents name (Some flt) None (snd (create_document name data db))
  = (get_documents name (Some flt) None db
     ++ [<["_id" := VOid (next_oid db)]> data])%list.
Proof.
  intros Hm. unfold get_documents.
  change (default ∅ (Some flt)) with flt.
  rewrite collection_create_same, List.filter_app. cbn [List.filter].
  by rewrite Hm.
Qed.

Lemma get_documents_create_miss name data flt limit db :
  matches flt (<["_id" := VOid (next_oid db)]> data) = false ->
  get_documents name (Some flt) limit (snd (create_document name data db))
  = get_documents name (Some flt) limit db.
Proof.
  intros Hm. unfold get_documents.
  change (default ∅ (Some flt)) with flt.
  rewrite collection_create_same, List.filter_app. cbn [List.filter].
  by rewrite Hm, app_nil_r.
Qed.

End Filing.

(** The record a creation route stores matches the filter of its listing
    route; the lookups are read off by computation. *)
Ltac filed_under_key :=
  lazymatch goal with
  | |- context [create_document ?name ?data ?db] =>
      exists (<["_id" := VOid (next_oid db)]> data),
             (<["_id" := VStr (str_oid (next_oid db))]> data);
      eexists; exists (snd (create_document name data db));
      split; [reflexivity|];
      split; [reflexivity|];
      split; [cbn [fst snd]; rewrite get_documents_create_hit;
              [reflexivity|apply matches_singleton; reflexivity]|];
      split; [reflexivity|];
      symmetry; apply insert_insert_eq
  end.

(** X9. For each of the six kinds of child record, the record a creation
    route stores is returned by the listing route of its parent key
    ([timeline_item_id] for tasks, [project_id] for the others) to any
    caller: the listing after the creation is the listing before it followed
    by the new record, and the record returned to the creator is the stored
    one with its id rendered as a string. *)
Theorem child_record_listed_under_its_key
    (req lst : request) (U V : dict) (db : store)
    (Hlist : list_route req = Some lst) :
  exists (stored returned : dict) (before : list dict) (db' : store),
    handler req U db = (Ok (one returned), db')
    /\ handler lst V db = (Ok (many before), db)
    /\ handler lst V db' = (Ok (many (before ++ [stored])%list), db')
    /\ stored !! "_id" = Some (VOid (next_oid db))
    /\ returned = <["_id" := VStr (str_oid (next_oid db))]> stored.
Proof.
  destruct req; try discriminate; injection Hlist as <-;
    unfold handler, reply;
    unfold add_metric, get_metrics, add_action, get_actions, add_timeline_item,
      get_timeline, add_task, get_tasks, add_comment, get_comments,
      add_document, get_documents_for_project;
    filed_under_key.
Qed.

Lemma child_record_listed_under_its_key_example :
  exists (stored : dict) (db' : store),
    list_route
      (POST_tasks {| TaskIn.project_id := "0"; TaskIn.timeline_item_id := "7";
                     TaskIn.title := "Collect evidence";
                     TaskIn.description := None; TaskIn.assignee_id := None;
                     TaskIn.status := "todo"; TaskIn.due_date := None |})
    = Some (GET_tasks "7")
    /\ handler (GET_tasks "7") Demo.user1 db' = (Ok (many [stored]), db')
    /\ stored !! "_id" = Some (VOid 0).
Proof.
  destruct (child_record_listed_under_its_key
              (POST_tasks {| TaskIn.project_id := "0";
                             TaskIn.timeline_item_id := "7";
                             TaskIn.title := "Collect evidence";
                             TaskIn.description := None;
                             TaskIn.assignee_id := None;
                             TaskIn.status := "todo";
                             TaskIn.due_date := None |})
              (GET_tasks "7") Demo.user0 Demo.user1 Database.empty eq_refl)
    as (stored & returned & before & db' & Hadd & Hbefore & Hafter & Hid & _).
  injection Hadd as _ <-. injection Hbefore as <-.
  eexists _, _. split; [reflexivity|]. split; [exact Hafter|exact Hid].
Defined.

(** The record a creation route stores does not match the filter of a
    listing route with another key, or lies in another collection. *)
Ltac not_filed_here Hne :=
  first
    [ rewrite get_documents_create_other by discriminate; reflexivity
    | rewrite get_documents_create_miss;
      [ reflexivity
      | apply not_true_iff_false; rewrite matches_singleton;
        intros Hm; apply Hne; vm_compute in Hm; injection Hm as <-;
        reflexivity ] ].

(** X10. Creating a child record changes the answer of no listing route
    but the one of its own parent key: every other listing, of another kind
    or of the same kind under another key, and the listing of projects,
    returns after the creation what it returned before. *)
Theorem child_listings_are_isolated
    (req lst other : request) (U V : dict) (db : store)
    (Hlist : list_route req = Some lst)
    (Hother : written_collection other = None)
    (Hne : other <> lst) :
  fst (handler other V (snd (handler req U db))) = fst (handler other V db).
Proof.
  destruct req; try discriminate; injection Hlist as <-;
    destruct other; try discriminate;
    unfold handler, reply;
    unfold add_metric, get_metrics, add_action, get_actions, add_timeline_item,
      get_timeline, add_task, get_tasks, add_comment, get_comments,
      add_document, get_documents_for_project, list_projects;
    cbn [fst snd];
    lazymatch goal with
    | |- context [create_document ?name ?data ?db] =>
        change (let '(_id, db') := create_document name data db in
                (Ok (<["_id" := VStr _id]> data), db'))
          with (Ok (<["_id" := VStr (str_oid (next_oid db))]> data),
                snd (create_document name data db));
        cbn [fst snd]
    end;
    not_filed_here Hne.
Qed.

Lemma child_listings_are_isolated_example :
  list_route (POST_metrics Demo.uptime) = Some (GET_metrics "0")
  /\ written_collection (GET_metrics "1") = None
  /\ GET_metrics "1" <> GET_metrics "0"
  /\ fst (handler (GET_metrics "1") Demo.user1
            (snd (handler (POST_metrics Demo.uptime) Demo.user0 Database.empty)))
     = Ok (many []).
Proof.
  assert (Hne : GET_metrics "1" <> GET_metrics "0") by discriminate.
  split; [reflexivity|]. split; [reflexivity|]. split; [exact Hne|].
  exact (child_listings_are_isolated (POST_metrics Demo.uptime)
           (GET_metrics "0") (GET_metrics "1") Demo.user0 Demo.user1
           Database.empty eq_refl eq_refl Hne).
Defined.

(** ** What a request does to the store *)

Section StoreEffects.

(** Inserting appends one document to the collection named and leaves
    the others as they were. *)
Lemma create_document_appends name data db name' :
  (exists new : list dict,
      collection (snd (create_document name data db)) name'
      = (collection db name' ++ new)%list
      /\ (length new <= 1)%nat)
  /\ (Some name <> Some name' ->
      collection (snd (create_document name data db)) name'
      = collection db name').
Proof.
  destruct (decide (name = name')) as [<-|Hne].
  - split; [|done]. eexists. split; [apply collection_create_same|]. simpl. lia.
  - split.
    + exists []. rewrite app_nil_r.
      split; [by apply collection_create_other|]. simpl. lia.
    + intros _. by apply collection_create_other.
Qed.

Lemma handler_appends (req : request) (u : dict) (db : store) (name : string) :
  (exists new : list dict,
      collection (snd (handler req u db)) name = (collection db name ++ new)%list
      /\ (length new <= 1)%nat)
  /\ (written_collection req <> Some name ->
      collection (snd (handler req u db)) name = collection db name)
  /\ (exists r, fst (handler req u db) = Ok r)
  /\ (next_oid db <= next_oid (snd (handler req u db)))%nat.
Proof.
  destruct req; unfold handler, reply;
    unfold create_project, list_projects, add_metric, get_metrics, add_action,
      get_actions, add_timeline_item, get_timeline, add_task, get_tasks,
      add_comment, get_comments, add_document, get_documents_for_project;
    cbn [fst snd written_collection];
    try (split; [exists []; rewrite app_nil_r; split; [reflexivity|simpl; lia]|];
         split; [reflexivity|]; split; [by eexists|lia]);
    lazymatch goal with
    | |- context [create_document ?coll ?data ?db] =>
        destruct (create_document_appends coll data db name) as [Happ Hframe];
        split; [exact Happ|]; split; [exact Hframe|];
        split; [by eexists|simpl; lia]
    end.
Qed.

End StoreEffects.

(** X11. A request to a protected route never removes or rewrites a
    stored document: every collection after the request is the collection
    before it followed by at most one new document, only the collection the
    route writes to can grow, object ids already handed out are not handed
    out again, and a request that ends in an error leaves the store exactly
    as it was. *)
Theorem serve_only_appends {env : Env}
    (req : request) (authorization : option string) (now : Z) (db : store)
    (name : string) :
  (exists new : list dict,
      collection (snd (serve req authorization now db)) name
      = (collection db name ++ new)%list
      /\ (length new <= 1)%nat)
  /\ (written_collection req <> Some name ->
      collection (snd (serve req authorization now db)) name
      = collection db name)
  /\ (forall e, fst (serve req authorization now db) = Raise e ->
                snd (serve req authorization now db) = db)
  /\ (next_oid db <= next_oid (snd (serve req authorization now db)))%nat.
Proof.
  unfold serve, Depends.
  destruct (get_current_user authorization now db) as [u|e].
  - destruct (handler_appends req u db name) as (Happ & Hframe & [r Hok] & Hoid).
    split; [exact Happ|]. split; [exact Hframe|]. split; [|exact Hoid].
    intros e He. rewrite Hok in He. discriminate.
  - cbn [fst snd]. split; [|split; [done|split; [done|lia]]].
    exists []. split; [by rewrite app_nil_r|simpl; lia].
Qed.

Lemma serve_only_appends_example :
  written_collection (POST_projects Demo.audit_q1) <> Some "user"
  /\ collection
       (snd (serve (env := Demo.env) (POST_projects Demo.audit_q1)
               (Some "Bearer abc") 0 Demo.one_user)) "user"
     = collection Demo.one_user "user".
Proof.
  assert (Hne : written_collection (POST_projects Demo.audit_q1) <> Some "user")
    by discriminate.
  split; [exact Hne|].
  destruct (serve_only_appends (env := Demo.env) (POST_projects Demo.audit_q1)
              (Some "Bearer abc") 0 Demo.one_user "user")
    as (_ & Hframe & _).
  exact (Hframe Hne).
Defined.

(** X12. The public routes never remove or rewrite a stored document
    either: login leaves the store as it is whatever its outcome; a
    registration that fails, for any reason, leaves the store as it is; one
    that succeeds appends exactly one document to the user collection, under
    the next object id, and leaves every other collection as it was. *)
Theorem public_routes_only_append {env : Env}
    (payload : AuthPayload.t) (salt : string) (now : Z) (db : store)
    (name : string) :
  snd (login payload now db) = db
  /\ (forall e, fst (register payload salt now db) = Raise e ->
                snd (register payload salt now db) = db)
  /\ (forall tok, fst (register payload salt now db) = Ok tok ->
        exists u : dict,
          collection (snd (register payload salt now db)) "user"
          = (collection db "user" ++ [u])%list
          /\ u !! "_id" = Some (VOid (next_oid db))
          /\ u !! "email" = Some (VStr (AuthPayload.email payload))
          /\ next_oid (snd (register payload salt now db)) = S (next_oid db))
  /\ (name <> "user" ->
      collection (snd (register payload salt now db)) name = collection db name).
Proof.
  split; [|split; [|split]].
  - unfold login.
    destruct (get_documents "user" _ (Some 1%nat) db); [done|].
    by destruct (verify_password _ _) as [[|]|].
  - apply register_raise_unchanged.
  - intros tok Htok.
    destruct (register payload salt now db) as [r db'] eqn:Hreg.
    cbn [fst] in Htok. subst r. cbn [snd].
    pose proof (register_ok _ _ _ _ _ _ Hreg) as (hashed & _ & _ & Hcoll & _).
    eexists. split; [exact Hcoll|]. split; [reflexivity|]. split; [reflexivity|].
    revert Hreg. unfold register.
    destruct (get_documents "user" _ (Some 1%nat) db); [|discriminate].
    destruct (hash_password salt _); [|discriminate].
    by intros [= _ <-].
  - intros Hne. unfold register.
    destruct (get_documents "user" _ (Some 1%nat) db); [|done].
    destruct (hash_password salt _); [|done].
    apply collection_create_other. congruence.
Qed.

Lemma public_routes_only_append_example :
  "project" <> "user"
  /\ snd (login (env := Demo.env) Demo.alice_wrong 300 Demo.one_user)
     = Demo.one_user
  /\ collection (snd (register (env := Demo.env) Demo.bob Demo.salt 200
                        Demo.one_user)) "project"
     = collection Demo.one_user "project".
Proof.
  assert (Hne : "project" <> "user") by discriminate.
  destruct (public_routes_only_append (env := Demo.env) Demo.bob Demo.salt 200
              Demo.one_user "project") as (_ & _ & _ & Hframe).
  destruct (public_routes_only_append (env := Demo.env) Demo.alice_wrong
              Demo.salt 300 Demo.one_user "project") as (Hlogin & _).
  split; [exact Hne|]. split; [exact Hlogin|exact (Hframe Hne)].
Defined.

(** ** Two tenants, end to end *)

Section Tenants.
Context {env : Env} (Hjwt : Jwt.CodecSpec env_jwt).

(** The first answer of a query stays the first when documents are
    appended to the collection. *)
Lemma get_documents_one_stable name flt db db' (u : dict) rest more :
  get_documents name flt (Some 1%nat) db = u :: rest ->
  collection db' name = (collection db name ++ more)%list ->
  get_documents name flt (Some 1%nat) db' = [u].
Proof.
  unfold get_documents. intros Hq ->. rewrite List.filter_app.
  destruct (List.filter _ (collection db name)) as [|x l]; [discriminate|].
  simpl in Hq. by injection Hq as ->.
Qed.

(** A token issued for a stored user's email resolves to the first user
    with that email until it expires. *)
Lemma gate_resolves_issued subj issued later db (u : dict) rest :
  subj <> "" ->
  get_documents "user" (Some {["email" := VStr subj]}) (Some 1%nat) db
  = u :: rest ->
  (later < issued + 8 * 3600)%Z ->
  get_current_user
    (Some ("Bearer " ++ create_access_token {["sub" := VStr subj]} None issued))
    later db
  = Ok u.
Proof.
  intros Hsubj Hq Hlt.
  rewrite create_access_token_sub.
  rewrite (get_current_user_issued Hjwt _ _ later db Hsubj), Hq.
  change (issued + lifetime None)%Z with (issued + 8 * 3600)%Z.
  apply Z.leb_gt in Hlt. by rewrite Hlt.
Qed.

Lemma register_next_oid payload salt now db tok db' :
  register payload salt now db = (Ok tok, db') -> next_oid db' = S (next_oid db).
Proof.
  unfold register.
  destruct (get_documents "user" _ (Some 1%nat) db); [|discriminate].
  destruct (hash_password salt _); [|discriminate].
  by intros [= _ <-].
Qed.

End Tenants.

(** X13. Two users who registered one after the other, with non-empty
    emails, are kept apart from end to end: when the first creates a project
    with the token registration gave them, the project is stored with their
    id as [owner_id]; listing projects with that token returns it, and
    listing projects with the second user's token does not. *)
Theorem tenants_see_their_own_projects {env : Env}
    (Hjwt : Jwt.CodecSpec env_jwt)
    (pa pb : AuthPayload.t) (salt_a salt_b : string) (ta tb t1 t2 : Z)
    (db db1 db2 : store) (tokA tokB : TokenResponse.t) (data : ProjectIn.t)
    (HregA : register pa salt_a ta db = (Ok tokA, db1))
    (HregB : register pb salt_b tb db1 = (Ok tokB, db2))
    (HmailA : AuthPayload.email pa <> "")
    (HmailB : AuthPayload.email pb <> "")
    (Ht1 : (t1 < ta + 8 * 3600)%Z)
    (Ht2a : (t2 < ta + 8 * 3600)%Z)
    (Ht2b : (t2 < tb + 8 * 3600)%Z) :
  exists (stored returned : dict) (db3 : store) (mine theirs : list dict),
    serve (POST_projects data)
          (Some ("Bearer " ++ TokenResponse.access_token tokA)) t1 db2
    = (Ok (one returned), db3)
    /\ collection db3 "project" = (collection db2 "project" ++ [stored])%list
    /\ stored !! "name" = Some (VStr (ProjectIn.name data))
    /\ stored !! "owner_id" = Some (VStr (str_oid (next_oid db)))
    /\ serve GET_projects
             (Some ("Bearer " ++ TokenResponse.access_token tokA)) t2 db3
       = (Ok (many mine), db3)
    /\ serve GET_projects
             (Some ("Bearer " ++ TokenResponse.access_token tokB)) t2 db3
       = (Ok (many theirs), db3)
    /\ In stored mine
    /\ ~ In stored theirs.
Proof.
  pose proof (register_next_oid _ _ _ _ _ _ HregA) as Hoid.
  pose proof (register_ok _ _ _ _ _ _ HregB) as (hb0 & _ & _ & HcollB & _).
  apply register_then_query in HregA as (ha & _ & HqA & ->).
  apply register_then_query in HregB as (hb & _ & HqB & ->).
  set (uA := <["_id" := VOid (next_oid db)]>
               (User.model_dump (new_user pa ha db))) in *.
  set (uB := <["_id" := VOid (next_oid db1)]>
               (User.model_dump (new_user pb hb db1))) in *.
  set (project :=
         Project.model_dump
           {| Project.name := ProjectIn.name data;
              Project.description := ProjectIn.description data;
              Project.owner_id := Some (str_oid (next_oid db));
              Project.status := "active" |}).
  set (db3 := snd (create_document "project" project db2)).
  (* the first user is still the first match once the second is stored *)
  assert (HqA2 : get_documents "user"
                   (Some {["email" := VStr (AuthPayload.email pa)]})
                   (Some 1%nat) db2 = [uA])
    by exact (get_documents_one_stable _ _ _ _ _ _ _ HqA HcollB).
  assert (HqA3 : get_documents "user"
                   (Some {["email" := VStr (AuthPayload.email pa)]})
                   (Some 1%nat) db3 = [uA])
    by (unfold db3; by rewrite get_documents_create_other).
  assert (HqB3 : get_documents "user"
                   (Some {["email" := VStr (AuthPayload.email pb)]})
                   (Some 1%nat) db3 = [uB])
    by (unfold db3; by rewrite get_documents_create_other).
  exists (<["_id" := VOid (next_oid db2)]> project),
         (<["_id" := VStr (str_oid (next_oid db2))]> project),
         db3.
  eexists _, _.
  split.
  { unfold serve, Depends.
    by rewrite (gate_resolves_issued Hjwt _ ta t1 db2 uA [] HmailA HqA2 Ht1). }
  split; [apply collection_create_same|].
  split; [reflexivity|]. split; [reflexivity|].
  split.
  { unfold serve, Depends.
    by rewrite (gate_resolves_issued Hjwt _ ta t2 db3 uA [] HmailA HqA3 Ht2a). }
  split.
  { unfold serve, Depends.
    by rewrite (gate_resolves_issued Hjwt _ tb t2 db3 uB [] HmailB HqB3 Ht2b). }
  split.
  - apply In_get_documents_by. split; [|reflexivity].
    unfold db3. rewrite collection_create_same.
    apply in_or_app. right. by left.
  - intros [_ Howner]%In_get_documents_by.
    change (str (get uB "_id")) with (str_oid (next_oid db1)) in Howner.
    change ((<["_id" := VOid (next_oid db2)]> project : dict) !! "owner_id")
      with (Some (VStr (str_oid (next_oid db)))) in Howner.
    injection Howner as Howner. apply str_oid_inj in Howner. lia.
Qed.

Lemma tenants_see_their_own_projects_example :
  AuthPayload.email Demo.alice <> ""
  /\ AuthPayload.email Demo.bob <> ""
  /\ exists (stored : dict) (db3 : store) (mine theirs : list dict),
       serve (env := Demo.env) GET_projects
         (Some ("Bearer " ++ create_access_token (env := Demo.env)
                  {["sub" := VStr "alice@example.com"]} None 100))
         400 db3 = (Ok (many mine), db3)
       /\ serve (env := Demo.env) GET_projects
            (Some ("Bearer " ++ create_access_token (env := Demo.env)
                     {["sub" := VStr "bob@example.com"]} None 200))
            400 db3 = (Ok (many theirs), db3)
       /\ In stored mine
       /\ ~ In stored theirs.
Proof.
  assert (Ha : AuthPayload.email Demo.alice <> "") by discriminate.
  assert (Hb : AuthPayload.email Demo.bob <> "") by discriminate.
  split; [exact Ha|]. split; [exact Hb|].
  destruct (tenants_see_their_own_projects (env := Demo.env) jwt_spec
              Demo.alice Demo.bob Demo.salt Demo.salt 100 200 300 400
              Database.empty Demo.one_user Demo.two_users _ _ Demo.audit_q1
              eq_refl eq_refl Ha Hb ltac:(lia) ltac:(lia) ltac:(lia))
    as (stored & returned & db3 & mine & theirs
        & _ & _ & _ & _ & Hmine & Htheirs & Hin & Hout).
  exists stored, db3, mine, theirs.
  split; [exact Hmine|]. split; [exact Htheirs|]. split; [exact Hin|exact Hout].
Defined.

(** ** Who a header resolves to, as the store grows *)

Section GateFrame.
Context {env : Env}.

(** The gate reads the store through the user collection only. *)
Lemma get_current_user_reads_users authorization now db db' :
  collection db' "user" = collection db "user" ->
  get_current_user authorization now db' = get_current_user authorization now db.
Proof.
  intros Hsame. unfold get_current_user, get_documents. by rewrite Hsame.
Qed.

(** A header that resolves to a user still resolves to that user after
    documents are appended to the user collection. *)
Lemma get_current_user_stable authorization now db db' (u : dict) more :
  collection db' "user" = (collection db "user" ++ more)%list ->
  get_current_user authorization now db = Ok u ->
  get_current_user authorization now db' = Ok u.
Proof.
  intros Hgrow.
  destruct authorization as [h|]; [|discriminate].
  destruct (String.eqb_spec h "") as [->|Hne]; [discriminate|].
  rewrite !(get_current_user_nonempty h now _ Hne).
  destruct (split " " h) as [|scheme [|token [|x rest]]]; try discriminate.
  destruct (negb (String.eqb (lower scheme) "bearer")); [discriminate|].
  destruct (Jwt.decode token JWT_SECRET [JWT_ALGO] now) as [payload|e];
    [|discriminate].
  cbn [mbind result_bind].
  destruct (negb (truthy (get payload "sub"))); [discriminate|].
  destruct (get_documents "user" _ _ db) as [|u0 us] eqn:Hq; [discriminate|].
  intros [= <-].
  by rewrite (get_documents_one_stable _ _ _ _ _ _ _ Hq Hgrow).
Qed.

Lemma register_each_grows (reqs : list registration) :
  forall db, exists more : list dict,
    collection (register_each reqs db) "user"
    = (collection db "user" ++ more)%list.
Proof.
  induction reqs as [|[[payload salt] now] rest IH]; intros db.
  - exists []. by rewrite app_nil_r.
  - cbn [register_each].
    destruct (IH (snd (register payload salt now db))) as [more Hmore].
    rewrite Hmore.
    destruct (register payload salt now db) as [[tok|e] db'] eqn:Hreg.
    + apply register_ok in Hreg as (hashed & _ & _ & Hcoll & _).
      eexists. cbn [snd]. by rewrite Hcoll, <- app_assoc.
    + exists more. cbn [snd].
      replace db' with (snd (register payload salt now db)) by (by rewrite Hreg).
      rewrite (register_raise_unchanged payload salt now db e); [done|].
      by rewrite Hreg.
Qed.

End GateFrame.

(** X14. Requests to the protected routes never change who a header
    authenticates: after any such request, served or refused, the gate gives
    for every header and time the answer it gave before. *)
Theorem serve_keeps_authentication {env : Env}
    (req : request) (authorization authorization' : option string)
    (now now' : Z) (db : store) :
  get_current_user authorization' now'
    (snd (serve req authorization now db))
  = get_current_user authorization' now' db.
Proof.
  apply get_current_user_reads_users.
  unfold serve, Depends.
  destruct (get_current_user authorization now db) as [u|e]; [|reflexivity].
  destruct (handler_appends req u db "user") as (_ & Hframe & _).
  apply Hframe. by destruct req.
Qed.

(** X15. Registrations never lock out or re-map a user who authenticates:
    a header the gate resolves to a user is still resolved to the same user
    after any sequence of registration calls, successful or not. *)
Theorem register_each_keeps_authentication {env : Env}
    (reqs : list registration) (authorization : option string) (now : Z)
    (db : store) (u : dict)
    (Hauth : get_current_user authorization now db = Ok u) :
  get_current_user authorization now (register_each reqs db) = Ok u.
Proof.
  destruct (register_each_grows reqs db) as [more Hmore].
  exact (get_current_user_stable _ _ _ _ _ _ Hmore Hauth).
Qed.

Lemma register_each_keeps_authentication_example :
  exists u : dict,
    get_current_user (env := Demo.env)
      (Some ("Bearer " ++ create_access_token (env := Demo.env)
               {["sub" := VStr "alice@example.com"]} None 100))
      400 Demo.one_user = Ok u
    /\ get_current_user (env := Demo.env)
         (Some ("Bearer " ++ create_access_token (env := Demo.env)
                  {["sub" := VStr "alice@example.com"]} None 100))
         400
         (register_each (env := Demo.env)
            [(Demo.alice_blank, Demo.salt, 150%Z); (Demo.bob, Demo.salt, 200%Z)]
            Demo.one_user)
       = Ok u.
Proof.
  assert (Hauth : exists u : dict,
             get_current_user (env := Demo.env)
               (Some ("Bearer " ++ create_access_token (env := Demo.env)
                        {["sub" := VStr "alice@example.com"]} None 100))
               400 Demo.one_user = Ok u)
    by (eexists; reflexivity).
  destruct Hauth as [u Hauth]. exists u. split; [exact Hauth|].
  exact (register_each_keeps_authentication (env := Demo.env)
           [(Demo.alice_blank, Demo.salt, 150%Z); (Demo.bob, Demo.salt, 200%Z)]
           _ 400 Demo.one_user u Hauth).
Defined.
